(** * OATdle: the daily question, the per-day session state and the statistics

    A shallow embedding of [src/script.js] (the daily game page) and of the
    parts of the ECMAScript [Date] object it calls.

    Conventions of the embedding.
    - A JavaScript time value is an integer number of milliseconds since
      1970-01-01T00:00:00Z, here a [Z].  The counters and ids of the page
      are JavaScript numbers holding integers; they are [Z] as well, which
      is exact as long as they stay inside the safe-integer range.
    - [null] and [undefined] are [None].
    - The clock ([new Date()]) and the host's time zone are inputs: every
      function that reads the clock takes the instant it reads, and every
      function that converts between UTC and local time takes the zone.
    - The page's module-level variables and the DOM nodes it writes form the
      record [Page]; [localStorage] is the record [Storage], which survives a
      reload while the [Page] does not. *)

From Stdlib Require Import ZArith Lia String Ascii Bool DecimalString List.
Import ListNotations.
Local Open Scope Z_scope.

(** ** ECMAScript dates (ECMA-262, section 21.4.1) *)

Module JSDate.

Definition msPerDay : Z := 86400000.
Definition msPerHour : Z := 3600000.

Definition Day (t : Z) : Z := t / msPerDay.
Definition TimeWithinDay (t : Z) : Z := t mod msPerDay.

Definition DayFromYear (y : Z) : Z :=
  365 * (y - 1970) + (y - 1969) / 4 - (y - 1901) / 100 + (y - 1601) / 400.

Definition TimeFromYear (y : Z) : Z := msPerDay * DayFromYear y.

Definition DaysInYear (y : Z) : Z :=
  if negb (y mod 4 =? 0) then 365
  else if negb (y mod 100 =? 0) then 366
  else if negb (y mod 400 =? 0) then 365
  else 366.

(** The standard defines YearFromTime(t) as the largest [y] with
    [TimeFromYear y <= t].  The mean length of a year is 146097/400 days,
    so that year is one of the three around the estimate [e]. *)
Definition YearFromDay (d : Z) : Z :=
  let e := 1970 + (400 * d) / 146097 in
  if DayFromYear (e + 1) <=? d then e + 1
  else if DayFromYear e <=? d then e
  else e - 1.

Definition YearFromTime (t : Z) : Z := YearFromDay (Day t).

Definition InLeapYear (t : Z) : Z :=
  if DaysInYear (YearFromTime t) =? 366 then 1 else 0.

Definition DayWithinYear (t : Z) : Z := Day t - DayFromYear (YearFromTime t).

(** Number of days of the year before month [m] (0 = January). *)
Definition monthStart (m leap : Z) : Z :=
  if m <=? 0 then 0
  else if m =? 1 then 31
  else if m =? 2 then 59 + leap
  else if m =? 3 then 90 + leap
  else if m =? 4 then 120 + leap
  else if m =? 5 then 151 + leap
  else if m =? 6 then 181 + leap
  else if m =? 7 then 212 + leap
  else if m =? 8 then 243 + leap
  else if m =? 9 then 273 + leap
  else if m =? 10 then 304 + leap
  else 334 + leap.

Definition MonthFromTime (t : Z) : Z :=
  let d := DayWithinYear t in
  let leap := InLeapYear t in
  if d <? 31 then 0
  else if d <? 59 + leap then 1
  else if d <? 90 + leap then 2
  else if d <? 120 + leap then 3
  else if d <? 151 + leap then 4
  else if d <? 181 + leap then 5
  else if d <? 212 + leap then 6
  else if d <? 243 + leap then 7
  else if d <? 273 + leap then 8
  else if d <? 304 + leap then 9
  else if d <? 334 + leap then 10
  else 11.

Definition DateFromTime (t : Z) : Z :=
  DayWithinYear t - monthStart (MonthFromTime t) (InLeapYear t) + 1.

Definition WeekDay (t : Z) : Z := (Day t + 4) mod 7.

(** MakeDay(year, month, date) for integral arguments. *)
Definition MakeDay (year month date : Z) : Z :=
  let ym := year + month / 12 in
  let mn := month mod 12 in
  let leap := if DaysInYear ym =? 366 then 1 else 0 in
  DayFromYear ym + monthStart mn leap + date - 1.

Definition MakeDate (day time : Z) : Z := day * msPerDay + time.

(** A time zone is the standard's LocalTZA(t, isUTC): the offset of local
    time from UTC in milliseconds, asked either at a UTC instant
    ([isUTC = true]) or at a local time value ([isUTC = false]). *)
Definition TimeZone : Type := Z -> bool -> Z.

Definition LocalTime (tz : TimeZone) (t : Z) : Z := t + tz t true.
Definition UTC (tz : TimeZone) (t : Z) : Z := t - tz t false.

(** [d.getFullYear()] *)
Definition getFullYear (tz : TimeZone) (t : Z) : Z :=
  YearFromTime (LocalTime tz t).

(** [new Date(year, month, date)]: the fields are local time; a year in
    0..99 means 1900 + year. *)
Definition newDate3 (tz : TimeZone) (year month date : Z) : Z :=
  let yr := if (0 <=? year) && (year <=? 99) then 1900 + year else year in
  UTC tz (MakeDate (MakeDay yr month date) 0).

(** [new Date(value)] for a stored number or [null] (ToNumber(null) = 0). *)
Definition newDate1 (value : option Z) : Z :=
  match value with
  | Some v => v
  | None => 0
  end.

(** [d.toDateString()] prints the local week day, month, day of the month
    and year ("Mon Jul 01 2024"); the text determines and is determined by
    these four fields, which stand for it here. *)
Record DateString : Type := mkDateString
  { dsWeekDay : Z; dsMonth : Z; dsDate : Z; dsYear : Z }.

Definition toDateString (tz : TimeZone) (t : Z) : DateString :=
  let lt := LocalTime tz t in
  mkDateString (WeekDay lt) (MonthFromTime lt) (DateFromTime lt)
               (YearFromTime lt).

Definition DateString_eqb (a b : DateString) : bool :=
  (dsWeekDay a =? dsWeekDay b) && (dsMonth a =? dsMonth b)
  && (dsDate a =? dsDate b) && (dsYear a =? dsYear b).

(** The local calendar date (year, month, day of the month) of an instant. *)
Definition calendarDate (tz : TimeZone) (t : Z) : Z * Z * Z :=
  let lt := LocalTime tz t in
  (YearFromTime lt, MonthFromTime lt, DateFromTime lt).

(** *** Two concrete zones *)

(** A zone with one offset all year. *)
Definition fixedZone (offset : Z) : TimeZone := fun _ _ => offset.

(** A zone with one daylight-saving period, from the UTC instant [from]
    to the UTC instant [till].  A local time that the clocks skip or
    repeat is read with the offset in force before the transition. *)
Definition dstZone (std dst from till : Z) : TimeZone :=
  fun t isUTC =>
    if isUTC
    then if (from <=? t) && (t <? till) then dst else std
    else if (from + dst <=? t) && (t <? till + dst) then dst else std.

(** New York in 2024: UTC-5, and UTC-4 from 10 March 07:00Z to
    3 November 06:00Z. *)
Definition newYork2024 : TimeZone :=
  dstZone (-5 * msPerHour) (-4 * msPerHour)
          (MakeDate (MakeDay 2024 2 10) (7 * msPerHour))
          (MakeDate (MakeDay 2024 10 3) (6 * msPerHour)).

End JSDate.

Import JSDate.


(** ** JavaScript values used by the page *)

(** Truthiness of a string: every string but the empty one. *)
Definition truthy (s : string) : bool :=
  negb (String.eqb s EmptyString).

(** [a === b] where [a] may be [null] and [b] is a string. *)
Definition strictEq (a : option string) (b : string) : bool :=
  match a with
  | Some s => String.eqb s b
  | None => false
  end.

(** [c.toUpperCase()] on a character of the ASCII range. *)
Definition upperAscii (c : ascii) : ascii :=
  let n := nat_of_ascii c in
  if ((97 <=? n) && (n <=? 122))%nat then ascii_of_nat (n - 32) else c.

Fixpoint toUpperCase (s : string) : string :=
  match s with
  | EmptyString => EmptyString
  | String c r => String (upperAscii c) (toUpperCase r)
  end.

(** [xs[i]] for an integral index: [undefined] outside the array. *)
Definition jsIndex {A : Type} (xs : list A) (i : Z) : option A :=
  if i <? 0 then None else nth_error xs (Z.to_nat i).

(** [Math.max(x, ...r)]: the largest of one or more numbers. *)
Definition MathMax (x : Z) (r : list Z) : Z := fold_left Z.max r x.

(** [`${n}`] for an integral number: its decimal digits, with a minus sign
    when negative. *)
Definition numberToString (n : Z) : string :=
  NilZero.string_of_int (Z.to_int n).

(** ** Data of the game *)

Record Question : Type := mkQuestion
  { id : Z;
    subject : string;
    difficulty : string;
    question : string;
    options : list (string * string);
    answer : string;
    explanation : string }.

Record GameState : Type := mkGameState
  { gameFinished : bool;
    lastPlayedTs : option Z;
    lastPlayedAnswer : option string }.

Record UserStats : Type := mkUserStats
  { gamesPlayed : Z;
    wins : Z;
    currentStreak : Z;
    maxStreak : Z }.

(** [localStorage]: the two keys the page uses.  A key holds the JSON text
    of the object written last; parsing that text gives the object back, so
    the slot holds the object. *)
Record Storage : Type := mkStorage
  { oatdleStats : option UserStats;
    oatdleGameState : option GameState }.

(** An element of [optionsContainer]. *)
Record OptionEl : Type := mkOptionEl
  { dataOption : string;
    optionText : string;
    classList : list string }.

(** What a callback handed to [setTimeout] does when it fires: reveal the
    option at [index], or show the feedback and save.  The captured
    variables of the closure are the constructor's arguments. *)
Inductive Task : Type :=
| RevealOption (index : nat) (selectedAnswer : option string)
    (correctAnswer : string) (isCorrect : bool)
| ShowFeedback (isCorrect : bool).

Record Timer : Type := mkTimer { due : Z; task : Task }.

(** The DOM nodes the game writes. *)
Record Dom : Type := mkDom
  { questionSubject : string;
    questionDifficulty : string;
    questionStem : string;
    optionsContainer : list OptionEl;
    feedbackText : string;
    explanationText : string;
    explanationDisplay : bool;
    countdownDisplay : bool;
    adminModalDisplay : bool }.

(** The module-level variables, the DOM, the pending timeouts, the number
    of running countdown intervals and the alerts shown so far. *)
Record Page : Type := mkPage
  { questions : list Question;
    currentQuestion : option Question;
    gameState : GameState;
    userStats : UserStats;
    isAdmin : bool;
    dom : Dom;
    timers : list Timer;
    intervals : nat;
    alerts : list string }.

Record World : Type := mkWorld { page : Page; storage : Storage }.

(** How a call ends: it returns, or an uncaught TypeError leaves it. *)
Inductive Outcome : Type := Returned | ThrewTypeError.

Definition initialGameState : GameState := mkGameState false None None.
Definition initialUserStats : UserStats := mkUserStats 0 0 0 0.

Definition initialDom : Dom :=
  mkDom EmptyString EmptyString EmptyString [] EmptyString EmptyString
        false false false.

(** The page as the script's top level leaves it, before [init] runs. *)
Definition initialPage : Page :=
  mkPage [] None initialGameState initialUserStats false initialDom [] 0 [].

Definition emptyStorage : Storage := mkStorage None None.

(** *** Field updates *)

Definition set_questions (v : list Question) (p : Page) : Page :=
  mkPage v (currentQuestion p) (gameState p) (userStats p) (isAdmin p)
         (dom p) (timers p) (intervals p) (alerts p).
Definition set_currentQuestion (v : option Question) (p : Page) : Page :=
  mkPage (questions p) v (gameState p) (userStats p) (isAdmin p)
         (dom p) (timers p) (intervals p) (alerts p).
Definition set_gameState (v : GameState) (p : Page) : Page :=
  mkPage (questions p) (currentQuestion p) v (userStats p) (isAdmin p)
         (dom p) (timers p) (intervals p) (alerts p).
Definition set_userStats (v : UserStats) (p : Page) : Page :=
  mkPage (questions p) (currentQuestion p) (gameState p) v (isAdmin p)
         (dom p) (timers p) (intervals p) (alerts p).
Definition set_dom (v : Dom) (p : Page) : Page :=
  mkPage (questions p) (currentQuestion p) (gameState p) (userStats p)
         (isAdmin p) v (timers p) (intervals p) (alerts p).
Definition set_timers (v : list Timer) (p : Page) : Page :=
  mkPage (questions p) (currentQuestion p) (gameState p) (userStats p)
         (isAdmin p) (dom p) v (intervals p) (alerts p).
Definition set_intervals (v : nat) (p : Page) : Page :=
  mkPage (questions p) (currentQuestion p) (gameState p) (userStats p)
         (isAdmin p) (dom p) (timers p) v (alerts p).

(** [alert(msg)] *)
Definition alert (msg : string) (p : Page) : Page :=
  mkPage (questions p) (currentQuestion p) (gameState p) (userStats p)
         (isAdmin p) (dom p) (timers p) (intervals p) (alerts p ++ [msg]).

Definition set_gameFinished (v : bool) (g : GameState) : GameState :=
  mkGameState v (lastPlayedTs g) (lastPlayedAnswer g).
Definition set_lastPlayedTs (v : option Z) (g : GameState) : GameState :=
  mkGameState (gameFinished g) v (lastPlayedAnswer g).
Definition set_lastPlayedAnswer (v : option string) (g : GameState)
  : GameState :=
  mkGameState (gameFinished g) (lastPlayedTs g) v.

Definition set_questionStem (v : string) (d : Dom) : Dom :=
  mkDom (questionSubject d) (questionDifficulty d) v (optionsContainer d)
        (feedbackText d) (explanationText d) (explanationDisplay d)
        (countdownDisplay d) (adminModalDisplay d).
Definition set_optionsContainer (v : list OptionEl) (d : Dom) : Dom :=
  mkDom (questionSubject d) (questionDifficulty d) (questionStem d) v
        (feedbackText d) (explanationText d) (explanationDisplay d)
        (countdownDisplay d) (adminModalDisplay d).
Definition set_feedbackText (v : string) (d : Dom) : Dom :=
  mkDom (questionSubject d) (questionDifficulty d) (questionStem d)
        (optionsContainer d) v (explanationText d) (explanationDisplay d)
        (countdownDisplay d) (adminModalDisplay d).
Definition set_adminModalDisplay (v : bool) (d : Dom) : Dom :=
  mkDom (questionSubject d) (questionDifficulty d) (questionStem d)
        (optionsContainer d) (feedbackText d) (explanationText d)
        (explanationDisplay d) (countdownDisplay d) v.

(** [setTimeout(task, delay)] called at the instant [now]: the callback
    fires after those already due at the same time. *)
Fixpoint insertTimer (t : Timer) (ts : list Timer) : list Timer :=
  match ts with
  | [] => [t]
  | u :: r => if due t <? due u then t :: u :: r else u :: insertTimer t r
  end.

Definition setTimeout (now : Z) (k : Task) (delay : Z) (p : Page) : Page :=
  set_timers (insertTimer (mkTimer (now + delay) k) (timers p)) p.

(** ** Data handling: the question bank and [localStorage] *)

Definition failedToLoad : string :=
  "Failed to load questions. Please try refreshing the page.".

(** [fetchQuestions()].  [response] is what the fetch of the question bank
    produced: [Some data] is the list under the key [questions] of the
    document, [None] a failed request or a document that does not parse. *)
Definition fetchQuestions (response : option (list Question)) (p : Page)
  : Page * list Question :=
  match response with
  | Some data => (set_questions data p, data)
  | None => (set_dom (set_questionStem failedToLoad (dom p)) p, [])
  end.

(** [getDailyQuestion(questions)], reading the clock at [now].  The
    argument is [None] when the caller passes [null] or [undefined].
    [Math.floor(diff / oneDay)] is [diff / oneDay] on [Z] (the quotient of
    two time values a few centuries apart is far from where the rounding of
    the division could reach the next integer); [%] keeps the sign of the
    dividend and is [Z.rem]. *)
Definition getDailyQuestion (tz : TimeZone) (now : Z)
  (questions : option (list Question)) : option Question :=
  match questions with
  | None => None
  | Some questions =>
      if Z.of_nat (length questions) =? 0 then None
      else
        let start := newDate3 tz (getFullYear tz now) 0 0 in
        let diff := now - start in
        let oneDay := 1000 * 60 * 60 * 24 in
        let dayOfYear := diff / oneDay in
        let questionIndex := Z.rem dayOfYear (Z.of_nat (length questions)) in
        jsIndex questions questionIndex
  end.

Definition saveStats (w : World) : World :=
  mkWorld (page w)
          (mkStorage (Some (userStats (page w))) (oatdleGameState (storage w))).

Definition loadStats (s : Storage) (p : Page) : Page :=
  match oatdleStats s with
  | Some stats => set_userStats stats p
  | None => p
  end.

Definition saveGameState (w : World) : World :=
  mkWorld (page w)
          (mkStorage (oatdleStats (storage w)) (Some (gameState (page w)))).

Definition loadGameState (tz : TimeZone) (now : Z) (s : Storage) (p : Page)
  : Page :=
  match oatdleGameState s with
  | Some savedState =>
      if DateString_eqb (toDateString tz (newDate1 (lastPlayedTs savedState)))
                        (toDateString tz now)
      then set_gameState savedState p
      else p
  | None => p
  end.

(** ** Game logic *)

Definition noQuestionToday : string := "No question available for today.".

Definition displayQuestion (q : option Question) (p : Page) : Page :=
  match q with
  | None => set_dom (set_questionStem noQuestionToday (dom p)) p
  | Some q =>
      let p := set_currentQuestion (Some q) p in
      let d := dom p in
      set_dom
        (mkDom (subject q) (difficulty q) (question q)
               (map (fun kv => mkOptionEl (fst kv) (snd kv) ["option"%string])
                    (options q))
               (feedbackText d) (explanationText d) (explanationDisplay d)
               (countdownDisplay d) (adminModalDisplay d))
        p
  end.

(** [updateStats(isCorrect)] on the statistics object. *)
Definition updateStats (isCorrect : bool) (userStats : UserStats)
  : UserStats :=
  let s :=
    mkUserStats (gamesPlayed userStats + 1) (wins userStats)
                (currentStreak userStats) (maxStreak userStats) in
  let s :=
    if isCorrect
    then mkUserStats (gamesPlayed s) (wins s + 1) (currentStreak s + 1)
                     (maxStreak s)
    else mkUserStats (gamesPlayed s) (wins s) 0 (maxStreak s) in
  if currentStreak s >? maxStreak s
  then mkUserStats (gamesPlayed s) (wins s) (currentStreak s) (currentStreak s)
  else s.

(** [handleAnswerSubmission(selectedAnswer)], reading the clock at [now].
    With no current question, [currentQuestion.answer] throws after the
    game state was written. *)
Definition handleAnswerSubmission (now : Z) (selectedAnswer : option string)
  (p : Page) : Page * Outcome :=
  if gameFinished (gameState p) then (p, Returned)
  else
    let p := set_gameState (set_gameFinished true (gameState p)) p in
    let p := set_gameState (set_lastPlayedTs (Some now) (gameState p)) p in
    let p :=
      set_gameState (set_lastPlayedAnswer selectedAnswer (gameState p)) p in
    match currentQuestion p with
    | None => (p, ThrewTypeError)
    | Some cq =>
        let correctAnswer := answer cq in
        let isCorrect := strictEq selectedAnswer correctAnswer in
        let p := set_userStats (updateStats isCorrect (userStats p)) p in
        let n := length (optionsContainer (dom p)) in
        let p :=
          fold_left
            (fun p index =>
               setTimeout now
                 (RevealOption index selectedAnswer correctAnswer isCorrect)
                 (Z.of_nat index * 300) p)
            (seq 0 n) p in
        (setTimeout now (ShowFeedback isCorrect) (Z.of_nat n * 300) p,
         Returned)
    end.

(** [startCountdown()] starts one more one-second interval. *)
Definition startCountdown (p : Page) : Page :=
  set_intervals (S (intervals p)) p.

(** [o.classList.add(c)]: a class already present is not added again. *)
Definition addClass (c : string) (o : OptionEl) : OptionEl :=
  if existsb (String.eqb c) (classList o) then o
  else mkOptionEl (dataOption o) (optionText o) (classList o ++ [c]).

Fixpoint updateNth {A : Type} (n : nat) (f : A -> A) (xs : list A) : list A :=
  match xs, n with
  | [], _ => []
  | x :: r, O => f x :: r
  | x :: r, S n => x :: updateNth n f r
  end.

(** The body of the two kinds of timeout callbacks of
    [handleAnswerSubmission].  The reveal acts on the option element the
    closure captured, which is the one at [index] of the container. *)
Definition fireTask (k : Task) (w : World) : World :=
  match k with
  | RevealOption index selectedAnswer correctAnswer isCorrect =>
      let reveal o :=
        let o := addClass "reveal" o in
        let optionLetter := dataOption o in
        if strictEq selectedAnswer optionLetter
        then addClass (if isCorrect then "correct" else "incorrect") o
        else if String.eqb optionLetter correctAnswer
             then addClass "correct" o
             else o in
      let p := page w in
      mkWorld
        (set_dom
           (set_optionsContainer
              (updateNth index reveal (optionsContainer (dom p))) (dom p))
           p)
        (storage w)
  | ShowFeedback isCorrect =>
      let p := page w in
      let p :=
        set_dom
          (set_feedbackText (if isCorrect then "Correct!" else "Incorrect!")
                            (dom p))
          p in
      match currentQuestion p with
      | None => mkWorld p (storage w)
      | Some cq =>
          let d := dom p in
          let p :=
            set_dom
              (mkDom (questionSubject d) (questionDifficulty d)
                     (questionStem d) (optionsContainer d) (feedbackText d)
                     (explanation cq) true (countdownDisplay d)
                     (adminModalDisplay d))
              p in
          let w := saveGameState (saveStats (mkWorld p (storage w))) in
          let p := page w in
          let d := dom p in
          let p :=
            set_dom
              (mkDom (questionSubject d) (questionDifficulty d)
                     (questionStem d) (optionsContainer d) (feedbackText d)
                     (explanationText d) (explanationDisplay d) true
                     (adminModalDisplay d))
              p in
          mkWorld (startCountdown p) (storage w)
      end
  end.

(** Let every pending timeout fire, the earliest first. *)
Definition runTimers (w : World) : World :=
  fold_left (fun w t => fireTask (task t) w) (timers (page w))
            (mkWorld (set_timers [] (page w)) (storage w)).

Definition restoreGameState (now : Z) (p : Page) : Page * Outcome :=
  if gameFinished (gameState p)
  then
    let p := set_gameState (set_gameFinished false (gameState p)) p in
    handleAnswerSubmission now (lastPlayedAnswer (gameState p)) p
  else (p, Returned).

(** ** Initialization *)

(** [init()] on a freshly loaded page.  [tLoad], [tSelect] and [tRestore]
    are the clock readings of [loadGameState], [getDailyQuestion] and
    [restoreGameState]; [adminParam] tells whether the URL carries
    [admin=true].  No event is taken to arrive while the fetch is awaited,
    so the steps run one after the other. *)
Definition init (tz : TimeZone) (tLoad tSelect tRestore : Z)
  (adminParam : bool) (response : option (list Question)) (s : Storage)
  : World * Outcome :=
  let p := initialPage in
  let p := loadStats s p in
  let p := loadGameState tz tLoad s p in
  let '(p, loadedQuestions) := fetchQuestions response p in
  let p :=
    if adminParam then set_dom (set_adminModalDisplay true (dom p)) p
    else p in
  let dailyQuestion := getDailyQuestion tz tSelect (Some loadedQuestions) in
  let p := displayQuestion dailyQuestion p in
  let '(p, o) := restoreGameState tRestore p in
  (mkWorld p s, o).

(** A reload throws the page away, pending timeouts included, and runs the
    script again on the same storage. *)
Definition reload (tz : TimeZone) (tLoad tSelect tRestore : Z)
  (adminParam : bool) (response : option (list Question)) (w : World)
  : World * Outcome :=
  init tz tLoad tSelect tRestore adminParam response (storage w).

(** ** Event listeners *)

(** The click listener of [optionsContainer]; [selectedOption] is the
    [data-option] of the option element the click landed in, if any. *)
Definition optionsContainer_click (now : Z) (selectedOption : option string)
  (p : Page) : Page * Outcome :=
  match selectedOption with
  | Some letter =>
      if negb (gameFinished (gameState p))
      then handleAnswerSubmission now (Some letter) p
      else (p, Returned)
  | None => (p, Returned)
  end.

(** The keydown listener of the document. *)
Definition document_keydown (now : Z) (eventKey : string) (p : Page)
  : Page * Outcome :=
  if gameFinished (gameState p) then (p, Returned)
  else
    let key := toUpperCase eventKey in
    if existsb (String.eqb key) ["A"; "B"; "C"; "D"]%string
    then handleAnswerSubmission now (Some key) p
    else (p, Returned).

(** ** Sharing *)

Definition newline : string := String (ascii_of_nat 10) EmptyString.

(** The click listener of the share button.  The second component is the
    text handed to [navigator.clipboard.writeText], if any. *)
Definition shareButton_click (tz : TimeZone) (now : Z) (p : Page)
  : Page * option string * Outcome :=
  if negb (gameFinished (gameState p))
  then
    (alert "You must complete the daily question before sharing!" p,
     None, Returned)
  else
    match currentQuestion p with
    | None => (p, None, ThrewTypeError)
    | Some cq =>
        let isCorrect := strictEq (lastPlayedAnswer (gameState p)) (answer cq) in
        let emoji := (if isCorrect then "✅" else "❌")%string in
        let start := newDate3 tz (getFullYear tz now) 0 0 in
        let diff := now - start in
        let oneDay := 1000 * 60 * 60 * 24 in
        let dayOfYear := diff / oneDay in
        let shareText :=
          ("OATdle #" ++ numberToString dayOfYear ++ newline ++ emoji)%string in
        (p, Some shareText, Returned)
    end.

(** ** Admin panel *)

(** The values of the inputs of the add-question form. *)
Record NewQuestionForm : Type := mkNewQuestionForm
  { newQuestionSubject : string;
    newQuestionDifficulty : string;
    newQuestionStem : string;
    newOptionA : string;
    newOptionB : string;
    newOptionC : string;
    newOptionD : string;
    newQuestionAnswer : string;
    newQuestionExplanation : string }.

Definition fillOutAllFields : string :=
  "Please fill out all fields for the new question.".

(** Look up the text of a choice letter in an options object. *)
Fixpoint optionOf (k : string) (opts : list (string * string)) : string :=
  match opts with
  | [] => EmptyString
  | (k', v) :: r => if String.eqb k k' then v else optionOf k r
  end.

(** The click listener of the add-question button.  The list of questions
    the panel renders and the reset of the form are left out: they read
    the store and write nothing the game uses. *)
Definition addQuestionButton_click (form : NewQuestionForm) (p : Page)
  : Page :=
  let newQuestion :=
    mkQuestion
      (match map id (questions p) with
       | x :: r => MathMax x r + 1
       | [] => 1
       end)
      (newQuestionSubject form)
      (newQuestionDifficulty form)
      (newQuestionStem form)
      [("A", newOptionA form); ("B", newOptionB form);
       ("C", newOptionC form); ("D", newOptionD form)]%string
      (toUpperCase (newQuestionAnswer form))
      (newQuestionExplanation form) in
  if truthy (question newQuestion) && truthy (answer newQuestion)
     && truthy (optionOf "A" (options newQuestion))
     && truthy (optionOf "B" (options newQuestion))
     && truthy (optionOf "C" (options newQuestion))
     && truthy (optionOf "D" (options newQuestion))
  then set_questions (questions p ++ [newQuestion]) p
  else alert fillOutAllFields p.

(** The click listener of the question list, on a delete button;
    [questionId] is [None] when [parseInt] gives [NaN]. *)
Definition questionList_click (questionId : option Z) (p : Page) : Page :=
  set_questions
    (filter (fun q => match questionId with
                      | Some i => negb (id q =? i)
                      | None => true
                      end)
            (questions p))
    p.

(** The click listener of the set-daily-question button. *)
Definition setDailyQuestionButton_click (questionId : option Z) (p : Page)
  : Page :=
  match find (fun q => match questionId with
                       | Some i => id q =? i
                       | None => false
                       end)
             (questions p) with
  | Some q =>
      let p := displayQuestion (Some q) p in
      let p := set_gameState (set_gameFinished false (gameState p)) p in
      let d := dom p in
      set_dom
        (mkDom (questionSubject d) (questionDifficulty d) (questionStem d)
               (optionsContainer d) EmptyString (explanationText d) false
               false false)
        p
  | None => alert "Question not found." p
  end.

(** ** Reference notions the statements use *)

(** The statistics invariant of the data model. *)
Definition statsInvariant (s : UserStats) : Prop :=
  0 <= gamesPlayed s /\ 0 <= wins s <= gamesPlayed s
  /\ 0 <= currentStreak s /\ currentStreak s <= maxStreak s.

(** The statistics after a sequence of submissions, each correct or not. *)
Definition afterSubmissions (results : list bool) (s : UserStats)
  : UserStats :=
  fold_left (fun s isCorrect => updateStats isCorrect s) results s.

(** The day number both the selector and the share handler compute at
    [now]: [Math.floor((now - new Date(now.getFullYear(), 0, 0)) / oneDay)]. *)
Definition dayOfYearAt (tz : TimeZone) (now : Z) : Z :=
  (now - newDate3 tz (getFullYear tz now) 0 0) / (1000 * 60 * 60 * 24).

(** Local time values of the two midnights of the selector's contract:
    the start of the local day of [now], and the start of "January 0" (the
    day before 1 January) of the local year of [now]. *)
Definition localMidnight (tz : TimeZone) (now : Z) : Z :=
  Day (LocalTime tz now) * msPerDay.

Definition localJan0 (tz : TimeZone) (now : Z) : Z :=
  (DayFromYear (YearFromTime (LocalTime tz now)) - 1) * msPerDay.

(** The day number as the contract of the selector words it: the whole
    days between the instant of local midnight of Jan 0 and the instant of
    today's local midnight. *)
Definition contractDayOfYear (tz : TimeZone) (now : Z) : Z :=
  (UTC tz (localMidnight tz now) - UTC tz (localJan0 tz now)) / 86400000.

(** The zone has the same UTC offset at [now], at today's local midnight
    and at local midnight of Jan 0: no daylight-saving shift lies between
    them. *)
Definition noOffsetShift (tz : TimeZone) (now : Z) : Prop :=
  tz now true = tz (localJan0 tz now) false
  /\ tz (localMidnight tz now) false = tz (localJan0 tz now) false.

(** A choice letter of a question. *)
Definition validAnswerLetter (s : string) : bool :=
  existsb (String.eqb s) ["A"; "B"; "C"; "D"]%string.

(** The inputs the add-question handler insists on: stem, answer and the
    four option texts are not empty. *)
Definition formFilled (form : NewQuestionForm) : bool :=
  truthy (newQuestionStem form) && truthy (newQuestionAnswer form)
  && truthy (newOptionA form) && truthy (newOptionB form)
  && truthy (newOptionC form) && truthy (newOptionD form).

(** The id the add-question handler gives the next question. *)
Definition nextId (qs : list Question) : Z :=
  match map id qs with
  | x :: r => MathMax x r + 1
  | [] => 1
  end.

(** A user event of the game. *)
Inductive GameEvent : Type :=
| Click (selectedOption : option string)
| KeyDown (eventKey : string).

(** Dispatch one event, read at the instant that comes with it. *)
Definition dispatch (p : Page) (e : Z * GameEvent) : Page :=
  match snd e with
  | Click o => fst (optionsContainer_click (fst e) o p)
  | KeyDown k => fst (document_keydown (fst e) k p)
  end.

(** ** Sample data *)

Definition sampleQuestion : Question :=
  mkQuestion 1 "Biology" "Easy" "Which organelle makes ATP?"
             [("A", "Nucleus"); ("B", "Mitochondrion");
              ("C", "Ribosome"); ("D", "Golgi body")]%string
             "B" "Mitochondria carry out oxidative phosphorylation.".

Definition secondQuestion : Question :=
  mkQuestion 2 "Chemistry" "Easy" "Which element has atomic number 6?"
             [("A", "Oxygen"); ("B", "Nitrogen");
              ("C", "Carbon"); ("D", "Boron")]%string
             "C" "Carbon has six protons.".

Definition sampleBank : list Question := [sampleQuestion; secondQuestion].

(** 1 July 2024 in New York: 00:30, 01:30 and 12:00 local time (UTC-4). *)
Definition july1_0030 : Z :=
  MakeDate (MakeDay 2024 6 1) (4 * msPerHour + 30 * 60000).
Definition july1_0130 : Z :=
  MakeDate (MakeDay 2024 6 1) (5 * msPerHour + 30 * 60000).
Definition july1_noon : Z :=
  MakeDate (MakeDay 2024 6 1) (16 * msPerHour).

(** A form with every field filled and the answer letter E. *)
Definition formWithAnswerE : NewQuestionForm :=
  mkNewQuestionForm "Physics" "Hard" "What is the SI unit of force?"
                    "Joule" "Newton" "Watt" "Pascal" "e"
                    "Force is measured in newtons.".

(** The same form with the stem left blank. *)
Definition formWithoutStem : NewQuestionForm :=
  mkNewQuestionForm "Physics" "Hard" EmptyString
                    "Joule" "Newton" "Watt" "Pascal" "b"
                    "Force is measured in newtons.".

(** A page showing the sample question, with statistics of seven games. *)
Definition openPage : Page :=
  set_userStats (mkUserStats 7 5 3 4)
                (displayQuestion (Some sampleQuestion) initialPage).

(** The same page once B was answered at 00:30. *)
Definition finishedPage : Page :=
  set_gameState (mkGameState true (Some july1_0030) (Some "B"%string))
                (displayQuestion (Some sampleQuestion) initialPage).

(** A page whose store holds the two sample questions. *)
Definition adminPage : Page := set_questions sampleBank initialPage.

(** One page load on 1 July 2024: the first sample question is on display
    and B is submitted at noon; the admin then sets the question of id 2 as
    the daily question; a minute after noon the key c is pressed. *)
Definition answeredPage : Page :=
  fst (handleAnswerSubmission july1_noon (Some "B"%string)
         (displayQuestion (Some sampleQuestion) adminPage)).

Definition overriddenPage : Page :=
  setDailyQuestionButton_click (Some 2) answeredPage.

Definition answeredAgainPage : Page :=
  fst (document_keydown (july1_noon + 60000) "c" overriddenPage).

(** A game finished at noon of 1 July 2024, as storage holds it. *)
Definition savedAtNoon : GameState :=
  mkGameState true (Some july1_noon) (Some "B"%string).

Definition storageAtNoon : Storage :=
  mkStorage (Some (mkUserStats 1 1 1 1)) (Some savedAtNoon).

(** A day of play in a zone on UTC, on a bank of one question: the first
    visit at noon, the world after a click on B a second later with the
    timeouts run, and the worlds after a reload one minute and two minutes
    after noon, timeouts run. *)
Definition firstVisit : World :=
  fst (init (fixedZone 0) july1_noon july1_noon july1_noon false
            (Some [sampleQuestion]) emptyStorage).

Definition afterAnswer : World :=
  runTimers
    (mkWorld (fst (optionsContainer_click (july1_noon + 1000)
                     (Some "B"%string) (page firstVisit)))
             (storage firstVisit)).

Definition afterReload : World :=
  runTimers
    (fst (reload (fixedZone 0) (july1_noon + 60000) (july1_noon + 60000)
                 (july1_noon + 60000) false (Some [sampleQuestion])
                 afterAnswer)).

Definition afterSecondReload : World :=
  runTimers
    (fst (reload (fixedZone 0) (july1_noon + 120000) (july1_noon + 120000)
                 (july1_noon + 120000) false (Some [sampleQuestion])
                 afterReload)).

(** * The rest of the page *)

(** ** The countdown *)

(** [d.getMonth()] and [d.getDate()] *)
Definition getMonth (tz : TimeZone) (t : Z) : Z :=
  MonthFromTime (LocalTime tz t).
Definition getDate (tz : TimeZone) (t : Z) : Z :=
  DateFromTime (LocalTime tz t).

(** [s.padStart(2, '0')] *)
Definition padStart2 (s : string) : string :=
  match s with
  | EmptyString => "00"
  | String c EmptyString => String "0" s
  | _ => s
  end.

(** What one tick of the interval of [startCountdown] does: it stops the
    interval, writes 00:00:00 and reloads the page, or it writes the time
    left. *)
Inductive Tick : Type :=
| TickReload
| TickShow (text : string).

(** The callback of the interval, reading the clock at [now].  [diff] is
    positive where the three fields are computed, and small enough for the
    floating-point quotients to have the integer part of the exact ones, so
    [Math.floor(q % k)] is [q mod k] on the integer quotient [q]. *)
Definition countdownTick (tz : TimeZone) (now : Z) : Tick :=
  let tomorrow :=
    newDate3 tz (getFullYear tz now) (getMonth tz now) (getDate tz now + 1) in
  let diff := tomorrow - now in
  if diff <=? 0 then TickReload
  else
    let hours := (diff / (1000 * 60 * 60)) mod 24 in
    let minutes := (diff / 1000 / 60) mod 60 in
    let seconds := (diff / 1000) mod 60 in
    TickShow (padStart2 (numberToString hours) ++ ":"
              ++ padStart2 (numberToString minutes) ++ ":"
              ++ padStart2 (numberToString seconds))%string.

(** The local time value of the midnight that ends the local day of
    [now]. *)
Definition localTomorrow (tz : TimeZone) (now : Z) : Z :=
  (Day (LocalTime tz now) + 1) * msPerDay.

(** The milliseconds left of the local day of [now]. *)
Definition msLeftToday (tz : TimeZone) (now : Z) : Z :=
  msPerDay - TimeWithinDay (LocalTime tz now).

(** ** The admin login *)

Definition ADMIN_PASSWORD : string := "oat".

(** The nodes of the admin panel the login writes: the value of the
    password input, whether the login form and the dashboard are shown, and
    the text of the page heading. *)
Record AdminPanel : Type := mkAdminPanel
  { adminPasswordValue : string;
    adminLoginDisplay : bool;
    adminDashboardDisplay : bool;
    heading : string }.

Definition set_isAdmin (v : bool) (p : Page) : Page :=
  mkPage (questions p) (currentQuestion p) (gameState p) (userStats p) v
         (dom p) (timers p) (intervals p) (alerts p).

(** [showAdminDashboard()]; the rendering of the question list is left
    out, as for the add-question listener. *)
Definition showAdminDashboard (p : Page) (a : AdminPanel)
  : Page * AdminPanel :=
  (set_isAdmin true p,
   mkAdminPanel (adminPasswordValue a) false true "OATdle Admin").

(** The click listener of the login button. *)
Definition adminLoginButton_click (p : Page) (a : AdminPanel)
  : Page * AdminPanel :=
  if String.eqb (adminPasswordValue a) ADMIN_PASSWORD
  then showAdminDashboard p a
  else (alert "Incorrect password" p,
        mkAdminPanel EmptyString (adminLoginDisplay a)
                     (adminDashboardDisplay a) (heading a)).

(** ** Runs of the page *)

(** The page with its storage and its admin panel. *)
Record App : Type := mkApp { world : World; panel : AdminPanel }.

(** What can happen to a loaded page: a click in the options, a key
    press, the earliest pending timeout firing, a reload, a click on the
    share button, the three admin actions, typing into the password input
    and a click on the login button.  Clock readings and the values of the
    inputs come with the event. *)
Inductive Event : Type :=
| EvClick (now : Z) (selectedOption : option string)
| EvKeyDown (now : Z) (eventKey : string)
| EvTimeout
| EvReload (tLoad tSelect tRestore : Z) (adminParam : bool)
    (response : option (list Question))
| EvShare (now : Z)
| EvAddQuestion (form : NewQuestionForm)
| EvDeleteQuestion (questionId : option Z)
| EvSetDailyQuestion (questionId : option Z)
| EvTypePassword (value : string)
| EvLogin.

(** The earliest pending timeout fires. *)
Definition fireNext (w : World) : World :=
  match timers (page w) with
  | [] => w
  | t :: r => fireTask (task t) (mkWorld (set_timers r (page w)) (storage w))
  end.

Definition onPage (f : Page -> Page) (a : App) : App :=
  mkApp (mkWorld (f (page (world a))) (storage (world a))) (panel a).

(** One event on the page; [html] is the admin panel as the document
    declares it, to which a reload returns.  A listener that throws leaves
    what it wrote before. *)
Definition step (tz : TimeZone) (html : AdminPanel) (a : App) (e : Event)
  : App :=
  match e with
  | EvClick now o => onPage (fun p => fst (optionsContainer_click now o p)) a
  | EvKeyDown now k => onPage (fun p => fst (document_keydown now k p)) a
  | EvTimeout => mkApp (fireNext (world a)) (panel a)
  | EvReload tLoad tSelect tRestore adminParam response =>
      mkApp (fst (reload tz tLoad tSelect tRestore adminParam response
                    (world a)))
            html
  | EvShare now => onPage (fun p => fst (fst (shareButton_click tz now p))) a
  | EvAddQuestion form => onPage (addQuestionButton_click form) a
  | EvDeleteQuestion i => onPage (questionList_click i) a
  | EvSetDailyQuestion i => onPage (setDailyQuestionButton_click i) a
  | EvTypePassword v =>
      mkApp (world a)
            (mkAdminPanel v (adminLoginDisplay (panel a))
                          (adminDashboardDisplay (panel a))
                          (heading (panel a)))
  | EvLogin =>
      let '(p, pn) := adminLoginButton_click (page (world a)) (panel a) in
      mkApp (mkWorld p (storage (world a))) pn
  end.

Definition run (tz : TimeZone) (html : AdminPanel) (evs : list Event)
  (a : App) : App :=
  fold_left (step tz html) evs a.

(** A first load of the page on a given storage. *)
Definition start (tz : TimeZone) (html : AdminPanel)
  (tLoad tSelect tRestore : Z) (adminParam : bool)
  (response : option (list Question)) (s : Storage) : App :=
  mkApp (fst (init tz tLoad tSelect tRestore adminParam response s)) html.

(** The statistics in storage, or the defaults when the key is absent. *)
Definition storedStats (s : Storage) : UserStats :=
  match oatdleStats s with
  | Some stats => stats
  | None => initialUserStats
  end.

(** What a reveal callback does to its option element; [isCorrect] is
    the variable the closure captured. *)
Definition revealWith (selectedAnswer : option string)
  (correctAnswer : string) (isCorrect : bool) (o : OptionEl) : OptionEl :=
  let o := addClass "reveal" o in
  let optionLetter := dataOption o in
  if strictEq selectedAnswer optionLetter
  then addClass (if isCorrect then "correct" else "incorrect") o
  else if String.eqb optionLetter correctAnswer
       then addClass "correct" o
       else o.

(** The timeouts one submission schedules. *)
Definition revealTimer (now : Z) (selectedAnswer : option string)
  (correctAnswer : string) (isCorrect : bool) (index : nat) : Timer :=
  mkTimer (now + Z.of_nat index * 300)
          (RevealOption index selectedAnswer correctAnswer isCorrect).

Definition feedbackTimer (now : Z) (isCorrect : bool) (n : nat) : Timer :=
  mkTimer (now + Z.of_nat n * 300) (ShowFeedback isCorrect).

(** The bank a fetch leaves: the list of the document, or the empty list
    when the request failed. *)
Definition bankOf (response : option (list Question)) : list Question :=
  match response with
  | Some data => data
  | None => []
  end.

(** The statistics are sound in memory and in storage, and storage is not
    ahead of the page. *)
Definition statsOk (w : World) : Prop :=
  statsInvariant (userStats (page w))
  /\ statsInvariant (storedStats (storage w))
  /\ gamesPlayed (storedStats (storage w)) <= gamesPlayed (userStats (page w)).

(** ** The practice page *)

Module Practice.

Record Dom : Type := mkDom
  { questionSubject : string;
    questionDifficulty : string;
    questionStem : string;
    optionsContainer : list OptionEl;
    feedbackText : string;
    explanationText : string;
    explanationDisplay : bool }.

(** A reveal callback holds the option element it was created for.
    [displayQuestion] empties the container and fills it with new
    elements, so the callback carries the number of the filling its
    element belongs to, and the [index] of the element in it. *)
Inductive Task : Type :=
| RevealOption (filling : nat) (index : nat) (selectedAnswer : option string)
    (correctAnswer : string) (isCorrect : bool)
| ShowFeedback (isCorrect : bool).

Record Timer : Type := mkTimer { due : Z; task : Task }.

(** The module-level variables, the DOM, the number of times the options
    container was filled, and the pending timeouts. *)
Record Page : Type := mkPage
  { questions : list Question;
    currentQuestionIndex : Z;
    currentQuestion : option Question;
    gameFinished : bool;
    dom : Dom;
    filling : nat;
    timers : list Timer }.

Definition initialDom : Dom :=
  mkDom EmptyString EmptyString EmptyString [] EmptyString EmptyString false.

Definition initialPage : Page := mkPage [] 0 None false initialDom 0 [].

Definition set_dom (v : Dom) (p : Page) : Page :=
  mkPage (questions p) (currentQuestionIndex p) (currentQuestion p)
         (gameFinished p) v (filling p) (timers p).
Definition set_timers (v : list Timer) (p : Page) : Page :=
  mkPage (questions p) (currentQuestionIndex p) (currentQuestion p)
         (gameFinished p) (dom p) (filling p) v.
Definition set_gameFinished (v : bool) (p : Page) : Page :=
  mkPage (questions p) (currentQuestionIndex p) (currentQuestion p)
         v (dom p) (filling p) (timers p).
Definition set_currentQuestionIndex (v : Z) (p : Page) : Page :=
  mkPage (questions p) v (currentQuestion p)
         (gameFinished p) (dom p) (filling p) (timers p).
Definition set_questionStem (v : string) (d : Dom) : Dom :=
  mkDom (questionSubject d) (questionDifficulty d) v (optionsContainer d)
        (feedbackText d) (explanationText d) (explanationDisplay d).

Fixpoint insertTimer (t : Timer) (ts : list Timer) : list Timer :=
  match ts with
  | [] => [t]
  | u :: r => if due t <? due u then t :: u :: r else u :: insertTimer t r
  end.

Definition setTimeout (now : Z) (k : Task) (delay : Z) (p : Page) : Page :=
  set_timers (insertTimer (mkTimer (now + delay) k) (timers p)) p.

Definition noQuestions : string := "No questions available.".

(** [fetchQuestions()]: the list of the document, or the empty list and a
    message in the stem when the request fails. *)
Definition fetchQuestions (response : option (list Question)) (p : Page)
  : Page * list Question :=
  match response with
  | Some data => (p, data)
  | None => (set_dom (set_questionStem failedToLoad (dom p)) p, [])
  end.

Definition displayQuestion (q : option Question) (p : Page) : Page :=
  match q with
  | None => set_dom (set_questionStem noQuestions (dom p)) p
  | Some q =>
      mkPage (questions p) (currentQuestionIndex p) (Some q) false
             (mkDom (subject q) (difficulty q) (question q)
                    (map (fun kv =>
                            mkOptionEl (fst kv) (snd kv) ["option"%string])
                         (options q))
                    EmptyString (explanationText (dom p)) false)
             (S (filling p)) (timers p)
  end.

(** [init()] on a freshly loaded page. *)
Definition init (response : option (list Question)) : Page :=
  let '(p, loadedQuestions) := fetchQuestions response initialPage in
  let p :=
    mkPage loadedQuestions (currentQuestionIndex p) (currentQuestion p)
           (gameFinished p) (dom p) (filling p) (timers p) in
  if 0 <? Z.of_nat (length (questions p))
  then displayQuestion (jsIndex (questions p) (currentQuestionIndex p)) p
  else p.

(** [handleAnswerSubmission(selectedAnswer)], called at the instant
    [now]. *)
Definition handleAnswerSubmission (now : Z) (selectedAnswer : option string)
  (p : Page) : Page * Outcome :=
  if gameFinished p then (p, Returned)
  else
    let p := set_gameFinished true p in
    match currentQuestion p with
    | None => (p, ThrewTypeError)
    | Some cq =>
        let correctAnswer := answer cq in
        let isCorrect := strictEq selectedAnswer correctAnswer in
        let n := length (optionsContainer (dom p)) in
        let p :=
          fold_left
            (fun p index =>
               setTimeout now
                 (RevealOption (filling p) index selectedAnswer
                               correctAnswer isCorrect)
                 (Z.of_nat index * 300) p)
            (seq 0 n) p in
        (setTimeout now (ShowFeedback isCorrect) (Z.of_nat n * 300) p,
         Returned)
    end.

(** The body of the timeout callbacks.  A reveal of an element that is no
    longer in the container shows nothing. *)
Definition fireTask (k : Task) (p : Page) : Page :=
  match k with
  | RevealOption f index selectedAnswer correctAnswer isCorrect =>
      if Nat.eqb f (filling p)
      then
        let reveal o :=
          let o := addClass "reveal" o in
          let optionLetter := dataOption o in
          if strictEq selectedAnswer optionLetter
          then addClass (if isCorrect then "correct" else "incorrect") o
          else if String.eqb optionLetter correctAnswer
               then addClass "correct" o
               else o in
        set_dom
          (mkDom (questionSubject (dom p)) (questionDifficulty (dom p))
                 (questionStem (dom p))
                 (updateNth index reveal (optionsContainer (dom p)))
                 (feedbackText (dom p)) (explanationText (dom p))
                 (explanationDisplay (dom p)))
          p
      else p
  | ShowFeedback isCorrect =>
      let d := dom p in
      let p :=
        set_dom
          (mkDom (questionSubject d) (questionDifficulty d) (questionStem d)
                 (optionsContainer d)
                 (if isCorrect then "Correct!" else "Incorrect!")
                 (explanationText d) (explanationDisplay d))
          p in
      match currentQuestion p with
      | None => p
      | Some cq =>
          let d := dom p in
          set_dom
            (mkDom (questionSubject d) (questionDifficulty d)
                   (questionStem d) (optionsContainer d) (feedbackText d)
                   (explanation cq) true)
            p
      end
  end.

Definition optionsContainer_click (now : Z) (selectedOption : option string)
  (p : Page) : Page * Outcome :=
  match selectedOption with
  | Some letter =>
      if negb (gameFinished p)
      then handleAnswerSubmission now (Some letter) p
      else (p, Returned)
  | None => (p, Returned)
  end.

Definition document_keydown (now : Z) (eventKey : string) (p : Page)
  : Page * Outcome :=
  if gameFinished p then (p, Returned)
  else
    let key := toUpperCase eventKey in
    if existsb (String.eqb key) ["A"; "B"; "C"; "D"]%string
    then handleAnswerSubmission now (Some key) p
    else (p, Returned).

Definition prevQuestionButton_click (p : Page) : Page :=
  if currentQuestionIndex p >? 0
  then
    let p := set_currentQuestionIndex (currentQuestionIndex p - 1) p in
    displayQuestion (jsIndex (questions p) (currentQuestionIndex p)) p
  else p.

Definition nextQuestionButton_click (p : Page) : Page :=
  if currentQuestionIndex p <? Z.of_nat (length (questions p)) - 1
  then
    let p := set_currentQuestionIndex (currentQuestionIndex p + 1) p in
    displayQuestion (jsIndex (questions p) (currentQuestionIndex p)) p
  else p.

(** What can happen to the loaded practice page. *)
Inductive Event : Type :=
| EvClick (now : Z) (selectedOption : option string)
| EvKeyDown (now : Z) (eventKey : string)
| EvTimeout
| EvPrev
| EvNext.

Definition step (p : Page) (e : Event) : Page :=
  match e with
  | EvClick now o => fst (optionsContainer_click now o p)
  | EvKeyDown now k => fst (document_keydown now k p)
  | EvTimeout =>
      match timers p with
      | [] => p
      | t :: r => fireTask (task t) (set_timers r p)
      end
  | EvPrev => prevQuestionButton_click p
  | EvNext => nextQuestionButton_click p
  end.

Definition run (evs : list Event) (p : Page) : Page := fold_left step evs p.

End Practice.

(** The practice page is in step: the index is inside the bank (or 0 on an
    empty bank) and the current question is the one at the index. *)
Definition practiceOk (p : Practice.Page) : Prop :=
  0 <= Practice.currentQuestionIndex p
  /\ (Practice.currentQuestionIndex p
      < Z.of_nat (length (Practice.questions p))
      \/ Practice.currentQuestionIndex p = 0)
  /\ Practice.currentQuestion p
     = jsIndex (Practice.questions p) (Practice.currentQuestionIndex p).

(** Clicks in the options and key presses, the events that submit. *)
Definition isSubmission (e : Practice.Event) : bool :=
  match e with
  | Practice.EvClick _ _ => true
  | Practice.EvKeyDown _ _ => true
  | _ => false
  end.

(** The option elements [displayQuestion] creates for a question. *)
Definition freshOptions (q : Question) : list OptionEl :=
  map (fun kv => mkOptionEl (fst kv) (snd kv) ["option"%string]) (options q).

(** * Properties *)

(** ** The calendar *)

Lemma DayFromYear_step (y : Z) :
  DayFromYear (y + 1) = DayFromYear y + DaysInYear y.
Proof.
  unfold DayFromYear, DaysInYear.
  destruct (Z.eqb_spec (y mod 4) 0), (Z.eqb_spec (y mod 100) 0),
    (Z.eqb_spec (y mod 400) 0); cbn [negb];
    Z.div_mod_to_equations; lia.
Qed.

(** [YearFromDay] is the year the standard asks for. *)
Lemma YearFromDay_spec (d : Z) :
  DayFromYear (YearFromDay d) <= d < DayFromYear (YearFromDay d + 1).
Proof.
  unfold YearFromDay.
  set (e := 1970 + 400 * d / 146097).
  assert (He : 146097 * (e - 1970) <= 400 * d < 146097 * (e - 1969)).
  { unfold e. Z.div_mod_to_equations. lia. }
  clearbody e.
  assert (Hlo : DayFromYear (e - 1) <= d).
  { unfold DayFromYear. Z.div_mod_to_equations. lia. }
  assert (Hhi : d < DayFromYear (e + 2)).
  { unfold DayFromYear. Z.div_mod_to_equations. lia. }
  destruct (Z.leb_spec (DayFromYear (e + 1)) d).
  - replace (e + 1 + 1) with (e + 2) by lia. lia.
  - destruct (Z.leb_spec (DayFromYear e) d).
    + lia.
    + replace (e - 1 + 1) with e by lia. lia.
Qed.

Lemma DayFromYear_mono (y z : Z) :
  y <= z -> DayFromYear y <= DayFromYear z.
Proof.
  intros H. unfold DayFromYear. Z.div_mod_to_equations. lia.
Qed.

(** It is the largest year that starts no later than the day. *)
Lemma YearFromDay_largest (d y : Z) :
  DayFromYear y <= d -> y <= YearFromDay d.
Proof.
  intros H.
  destruct (Z.le_gt_cases y (YearFromDay d)) as [Hle | Hgt]; [exact Hle |].
  pose proof (YearFromDay_spec d) as [_ Hup].
  pose proof (DayFromYear_mono (YearFromDay d + 1) y ltac:(lia)).
  lia.
Qed.

Lemma DayWithinYear_nonneg (t : Z) : 0 <= DayWithinYear t.
Proof.
  unfold DayWithinYear, YearFromTime.
  pose proof (YearFromDay_spec (Day t)). lia.
Qed.

Lemma DayWithinYear_bound (t : Z) :
  DayWithinYear t < DaysInYear (YearFromTime t).
Proof.
  unfold DayWithinYear, YearFromTime.
  pose proof (YearFromDay_spec (Day t)) as [_ H].
  rewrite DayFromYear_step in H. lia.
Qed.

(** The day number of a time value is fixed by its year, month and day of
    the month. *)
Lemma Day_of_fields (t : Z) :
  Day t =
  DayFromYear (YearFromTime t)
  + monthStart (MonthFromTime t)
               (if DaysInYear (YearFromTime t) =? 366 then 1 else 0)
  + DateFromTime t - 1.
Proof.
  unfold DateFromTime, InLeapYear, DayWithinYear. lia.
Qed.

Lemma DateString_eqb_eq (a b : DateString) :
  DateString_eqb a b = true <-> a = b.
Proof.
  destruct a as [w1 m1 d1 y1], b as [w2 m2 d2 y2].
  unfold DateString_eqb; cbn [dsWeekDay dsMonth dsDate dsYear].
  rewrite !andb_true_iff, !Z.eqb_eq. split.
  - intros [[[-> ->] ->] ->]. reflexivity.
  - intros H. injection H as -> -> -> ->. auto.
Qed.

(** Two instants print the same date exactly when their local year, month
    and day of the month agree. *)
Lemma toDateString_calendarDate (tz : TimeZone) (a b : Z) :
  toDateString tz a = toDateString tz b
  <-> calendarDate tz a = calendarDate tz b.
Proof.
  unfold toDateString, calendarDate. split.
  - intros H. injection H as _ Hm Hd Hy. congruence.
  - intros H. injection H as Hy Hm Hd.
    assert (HD : Day (LocalTime tz a) = Day (LocalTime tz b)).
    { rewrite (Day_of_fields (LocalTime tz a)),
        (Day_of_fields (LocalTime tz b)), Hy, Hm, Hd. reflexivity. }
    unfold WeekDay. rewrite HD, Hy, Hm, Hd. reflexivity.
Qed.

(** Both say that the two instants lie on the same local day. *)
Lemma calendarDate_Day (tz : TimeZone) (a b : Z) :
  calendarDate tz a = calendarDate tz b
  <-> Day (LocalTime tz a) = Day (LocalTime tz b).
Proof.
  split.
  - unfold calendarDate. intros H. injection H as Hy Hm Hd.
    rewrite (Day_of_fields (LocalTime tz a)),
      (Day_of_fields (LocalTime tz b)), Hy, Hm, Hd. reflexivity.
  - intros H. unfold calendarDate, DateFromTime, MonthFromTime, InLeapYear,
      DayWithinYear, YearFromTime. rewrite H. reflexivity.
Qed.

(** ** The daily selector *)

Lemma length_zero_nil {A : Type} (xs : list A) :
  (Z.of_nat (length xs) =? 0) = false <-> xs <> [].
Proof.
  destruct xs; cbn [length]; split; intros H; try congruence.
  - discriminate.
  - apply Z.eqb_neq. lia.
Qed.

(** What the selector returns on a bank that is not empty. *)
Lemma getDailyQuestion_index (tz : TimeZone) (now : Z) (qs : list Question) :
  qs <> [] ->
  getDailyQuestion tz now (Some qs)
  = jsIndex qs (Z.rem (dayOfYearAt tz now) (Z.of_nat (length qs))).
Proof.
  intros H. unfold getDailyQuestion, dayOfYearAt.
  apply length_zero_nil in H. rewrite H. reflexivity.
Qed.

Lemma newDate3_jan0 (tz : TimeZone) (now : Z) :
  100 <= getFullYear tz now ->
  newDate3 tz (getFullYear tz now) 0 0 = UTC tz (localJan0 tz now).
Proof.
  intros Hy. unfold newDate3.
  replace ((0 <=? getFullYear tz now) && (getFullYear tz now <=? 99))
    with false
    by (symmetry; apply andb_false_iff; right; apply Z.leb_gt; lia).
  unfold MakeDate, MakeDay, localJan0, getFullYear.
  change (0 / 12) with 0. change (0 mod 12) with 0.
  cbn [monthStart Z.leb Z.compare]. rewrite !Z.add_0_r.
  reflexivity.
Qed.

(** With no offset shift since Jan 0, the selector's day number is the
    ordinal of the local day within its year, counted from 1. *)
Lemma dayOfYearAt_no_shift (tz : TimeZone) (now : Z) :
  100 <= getFullYear tz now ->
  tz now true = tz (localJan0 tz now) false ->
  dayOfYearAt tz now = DayWithinYear (LocalTime tz now) + 1.
Proof.
  intros Hy Ho. unfold dayOfYearAt. rewrite (newDate3_jan0 tz now Hy).
  unfold UTC. rewrite <- Ho.
  unfold localJan0, DayWithinYear, Day, LocalTime, msPerDay.
  change (1000 * 60 * 60 * 24) with 86400000.
  set (y := DayFromYear (YearFromTime (now + tz now true))).
  set (o := tz now true). clearbody y o.
  Z.div_mod_to_equations. lia.
Qed.

Lemma contractDayOfYear_no_shift (tz : TimeZone) (now : Z) :
  tz (localMidnight tz now) false = tz (localJan0 tz now) false ->
  contractDayOfYear tz now = DayWithinYear (LocalTime tz now) + 1.
Proof.
  intros Ho. unfold contractDayOfYear, UTC. rewrite Ho.
  unfold localMidnight, localJan0, DayWithinYear, msPerDay.
  set (y := DayFromYear (YearFromTime (LocalTime tz now))).
  set (d := Day (LocalTime tz now)).
  set (o := tz ((y - 1) * 86400000) false). clearbody y d o.
  Z.div_mod_to_equations. lia.
Qed.

(** In a zone without offset shifts the selector is constant over a local
    day. *)
Lemma dayOfYearAt_same_day (tz : TimeZone) (a b : Z) :
  100 <= getFullYear tz a ->
  tz a true = tz (localJan0 tz a) false ->
  tz b true = tz (localJan0 tz b) false ->
  toDateString tz a = toDateString tz b ->
  dayOfYearAt tz a = dayOfYearAt tz b.
Proof.
  intros Hy Ha Hb Hs.
  apply toDateString_calendarDate, calendarDate_Day in Hs.
  assert (Hyb : getFullYear tz b = getFullYear tz a).
  { unfold getFullYear, YearFromTime. rewrite Hs. reflexivity. }
  rewrite (dayOfYearAt_no_shift tz a Hy Ha).
  rewrite (dayOfYearAt_no_shift tz b ltac:(lia) Hb).
  unfold DayWithinYear, YearFromTime. rewrite Hs. reflexivity.
Qed.

(** C2, at the failing input.  In New York, 00:30 and 01:30 of 1 July 2024
    are instants of the same local calendar day, and with the same bank of
    two questions the selector returns the first question at one and the
    second at the other. *)
Theorem selector_changes_within_a_day :
  toDateString newYork2024 july1_0030 = toDateString newYork2024 july1_0130
  /\ dayOfYearAt newYork2024 july1_0030 = 182
  /\ dayOfYearAt newYork2024 july1_0130 = 183
  /\ getDailyQuestion newYork2024 july1_0030 (Some sampleBank)
     = Some sampleQuestion
  /\ getDailyQuestion newYork2024 july1_0130 (Some sampleBank)
     = Some secondQuestion.
Proof. repeat split; vm_compute; reflexivity. Qed.

(** C3, amended.  For an instant of a local year from 100 on, in a zone
    whose UTC offset is the same at that instant, at today's local midnight
    and at local midnight of Jan 0, and for a bank of N > 0 questions: the
    day number the selector computes is
    floor((today's local midnight - local midnight of Jan 0) / 86400000),
    the index (that number mod N) lies in [0, N), and the selector returns
    the question at that index. *)
Theorem getDailyQuestion_contract (tz : TimeZone) (now : Z)
  (qs : list Question) :
  qs <> [] ->
  100 <= getFullYear tz now ->
  noOffsetShift tz now ->
  let n := Z.of_nat (length qs) in
  let index := contractDayOfYear tz now mod n in
  dayOfYearAt tz now = contractDayOfYear tz now
  /\ 0 <= index < n
  /\ exists q, getDailyQuestion tz now (Some qs) = Some q
               /\ nth_error qs (Z.to_nat index) = Some q.
Proof.
  intros Hqs Hy [Hnow Hmid] n index.
  assert (Hn : 0 < n).
  { subst n. destruct qs; [congruence | cbn [length]; lia]. }
  assert (Hd : dayOfYearAt tz now = contractDayOfYear tz now).
  { rewrite (dayOfYearAt_no_shift tz now Hy Hnow).
    rewrite (contractDayOfYear_no_shift tz now Hmid). reflexivity. }
  assert (Hpos : 0 <= contractDayOfYear tz now).
  { rewrite (contractDayOfYear_no_shift tz now Hmid).
    pose proof (DayWithinYear_nonneg (LocalTime tz now)). lia. }
  assert (Hi : 0 <= index < n) by (apply Z.mod_pos_bound; exact Hn).
  split; [exact Hd | split; [exact Hi |]].
  rewrite (getDailyQuestion_index tz now qs Hqs), Hd.
  rewrite Z.rem_mod_nonneg by lia. fold n. fold index.
  unfold jsIndex.
  replace (index <? 0) with false by (symmetry; apply Z.ltb_ge; lia).
  destruct (nth_error qs (Z.to_nat index)) as [q |] eqn:E.
  - exists q. split; reflexivity.
  - apply nth_error_None in E. lia.
Qed.

Lemma getDailyQuestion_contract_witness :
  exists q,
    getDailyQuestion (fixedZone 0) july1_noon (Some sampleBank) = Some q
    /\ nth_error sampleBank
         (Z.to_nat (contractDayOfYear (fixedZone 0) july1_noon
                    mod Z.of_nat (length sampleBank))) = Some q.
Proof.
  apply (getDailyQuestion_contract (fixedZone 0) july1_noon sampleBank).
  - discriminate.
  - vm_compute. discriminate.
  - split; reflexivity.
Defined.

(** C3 as worded fails: at noon of 1 July 2024 in New York the contract's
    day number is 182 while the selector computes 183, so with two
    questions the selector returns the other one. *)
Lemma getDailyQuestion_contract_counterexample :
  contractDayOfYear newYork2024 july1_noon = 182
  /\ dayOfYearAt newYork2024 july1_noon = 183
  /\ getDailyQuestion newYork2024 july1_noon (Some sampleBank)
     <> nth_error sampleBank
          (Z.to_nat (contractDayOfYear newYork2024 july1_noon
                     mod Z.of_nat (length sampleBank))).
Proof.
  split; [vm_compute; reflexivity |].
  split; [vm_compute; reflexivity |].
  vm_compute. discriminate.
Qed.

(** ** Submitting an answer *)

(** Scheduling timeouts changes the pending timeouts and nothing else. *)
Lemma fold_setTimeout_frame (now : Z) (k : nat -> Task) (d : nat -> Z)
  (l : list nat) (p : Page) :
  exists ts,
    fold_left (fun p index => setTimeout now (k index) (d index) p) l p
    = set_timers ts p.
Proof.
  revert p. induction l as [| i l IH]; intros p; cbn [fold_left].
  - exists (timers p). destruct p; reflexivity.
  - destruct (IH (setTimeout now (k i) (d i) p)) as [ts Hts].
    exists ts. rewrite Hts. reflexivity.
Qed.

(** The handler on a finished game. *)
Lemma handleAnswerSubmission_finished (now : Z) (a : option string)
  (p : Page) :
  gameFinished (gameState p) = true ->
  handleAnswerSubmission now a p = (p, Returned).
Proof.
  intros H. unfold handleAnswerSubmission. rewrite H. reflexivity.
Qed.

(** The handler on an open game with a question on display: it writes the
    game state, updates the statistics and schedules timeouts. *)
Lemma handleAnswerSubmission_open (now : Z) (a : option string) (p : Page)
  (cq : Question) :
  gameFinished (gameState p) = false ->
  currentQuestion p = Some cq ->
  exists ts,
    handleAnswerSubmission now a p
    = (mkPage (questions p) (currentQuestion p)
              (mkGameState true (Some now) a)
              (updateStats (strictEq a (answer cq)) (userStats p))
              (isAdmin p) (dom p) ts (intervals p) (alerts p),
       Returned).
Proof.
  intros Hf Hq. unfold handleAnswerSubmission. rewrite Hf.
  cbn [set_gameState set_gameFinished set_lastPlayedTs set_lastPlayedAnswer
       currentQuestion gameState gameFinished lastPlayedTs lastPlayedAnswer].
  rewrite Hq.
  match goal with
  | |- context [fold_left ?f ?l ?q] =>
      destruct (fold_setTimeout_frame now
                  (fun index => RevealOption index a (answer cq)
                                  (strictEq a (answer cq)))
                  (fun index => Z.of_nat index * 300) l q) as [ts Hts]
  end.
  rewrite Hts. eexists. unfold setTimeout. rewrite <- Hq. reflexivity.
Qed.

(** The handler with no question on display: the game state is written
    before the TypeError. *)
Lemma handleAnswerSubmission_no_question (now : Z) (a : option string)
  (p : Page) :
  gameFinished (gameState p) = false ->
  currentQuestion p = None ->
  handleAnswerSubmission now a p
  = (set_gameState (mkGameState true (Some now) a) p, ThrewTypeError).
Proof.
  intros Hf Hq. unfold handleAnswerSubmission. rewrite Hf.
  cbn [set_gameState set_gameFinished set_lastPlayedTs set_lastPlayedAnswer
       currentQuestion gameState gameFinished lastPlayedTs lastPlayedAnswer].
  rewrite Hq. reflexivity.
Qed.

(** In every case the handler leaves the DOM alone and the game finished. *)
Lemma handleAnswerSubmission_dom (now : Z) (a : option string) (p : Page) :
  dom (fst (handleAnswerSubmission now a p)) = dom p.
Proof.
  destruct (gameFinished (gameState p)) eqn:Hf.
  - rewrite handleAnswerSubmission_finished by exact Hf. reflexivity.
  - destruct (currentQuestion p) as [cq |] eqn:Hq.
    + destruct (handleAnswerSubmission_open now a p cq Hf Hq) as [ts ->].
      reflexivity.
    + rewrite handleAnswerSubmission_no_question by assumption. reflexivity.
Qed.

Lemma handleAnswerSubmission_finishes (now : Z) (a : option string)
  (p : Page) :
  gameFinished (gameState (fst (handleAnswerSubmission now a p))) = true.
Proof.
  destruct (gameFinished (gameState p)) eqn:Hf.
  - rewrite handleAnswerSubmission_finished by exact Hf. exact Hf.
  - destruct (currentQuestion p) as [cq |] eqn:Hq.
    + destruct (handleAnswerSubmission_open now a p cq Hf Hq) as [ts ->].
      reflexivity.
    + rewrite handleAnswerSubmission_no_question by assumption. reflexivity.
Qed.

Lemma restoreGameState_dom (now : Z) (p : Page) :
  dom (fst (restoreGameState now p)) = dom p.
Proof.
  unfold restoreGameState. destruct (gameFinished (gameState p)).
  - rewrite handleAnswerSubmission_dom. reflexivity.
  - reflexivity.
Qed.

(** C8.  With no bank ([null] or [undefined]) or an empty bank the selector
    returns [null] and raises nothing; shown [null], the page writes the
    fallback message and keeps its current question; and a startup whose
    fetch fails or brings an empty bank ends with that message in the
    question stem. *)
Theorem no_question_available (tz : TimeZone) (now : Z) :
  getDailyQuestion tz now None = None
  /\ getDailyQuestion tz now (Some []) = None
  /\ (forall p,
        questionStem (dom (displayQuestion None p)) = noQuestionToday
        /\ currentQuestion (displayQuestion None p) = currentQuestion p
        /\ gameState (displayQuestion None p) = gameState p
        /\ userStats (displayQuestion None p) = userStats p)
  /\ (forall tLoad tRestore adminParam response s,
        response = None \/ response = Some [] ->
        questionStem
          (dom (page (fst (init tz tLoad now tRestore adminParam response s))))
        = noQuestionToday).
Proof.
  split; [reflexivity |]. split; [reflexivity |]. split.
  - intros p. repeat split.
  - intros tLoad tRestore adminParam response s Hr.
    assert (Hsel : getDailyQuestion tz now
                     (Some (snd (fetchQuestions response
                                   (loadGameState tz tLoad s
                                      (loadStats s initialPage))))) = None).
    { destruct Hr as [-> | ->]; reflexivity. }
    unfold init.
    destruct (fetchQuestions response
                (loadGameState tz tLoad s (loadStats s initialPage)))
      as [p qs] eqn:Ef.
    cbn [snd] in Hsel. rewrite Hsel.
    set (p1 := if adminParam then _ else p). clearbody p1.
    pose proof (restoreGameState_dom tRestore (displayQuestion None p1))
      as Hdom.
    destruct (restoreGameState tRestore (displayQuestion None p1))
      as [p2 o].
    cbn [fst page] in *. rewrite Hdom. reflexivity.
Qed.

Lemma no_question_available_witness :
  questionStem
    (dom (page (fst (init (fixedZone 0) july1_noon july1_noon july1_noon
                          false None emptyStorage))))
  = noQuestionToday.
Proof.
  apply (no_question_available (fixedZone 0) july1_noon).
  left. reflexivity.
Defined.

(** ** Statistics *)

(** The fields of the statistics after one update. *)
Lemma updateStats_fields (isCorrect : bool) (s : UserStats) :
  let s' := updateStats isCorrect s in
  gamesPlayed s' = gamesPlayed s + 1
  /\ wins s' = (if isCorrect then wins s + 1 else wins s)
  /\ currentStreak s' = (if isCorrect then currentStreak s + 1 else 0)
  /\ maxStreak s'
     = (if currentStreak s' >? maxStreak s then currentStreak s'
        else maxStreak s).
Proof.
  unfold updateStats. destruct s as [g w c m], isCorrect;
    cbn [gamesPlayed wins currentStreak maxStreak].
  - destruct (c + 1 >? m) eqn:E;
      cbn [gamesPlayed wins currentStreak maxStreak]; rewrite ?E; auto.
  - destruct (0 >? m) eqn:E;
      cbn [gamesPlayed wins currentStreak maxStreak]; rewrite ?E; auto.
Qed.

Lemma updateStats_invariant (isCorrect : bool) (s : UserStats) :
  statsInvariant s -> statsInvariant (updateStats isCorrect s).
Proof.
  unfold statsInvariant. intros (Hg & Hw & Hc & Hm).
  destruct (updateStats_fields isCorrect s) as (Eg & Ew & Ec & Em).
  rewrite Eg, Ew, Em, Ec.
  destruct isCorrect.
  - destruct (Z.gtb_spec (currentStreak s + 1) (maxStreak s)); lia.
  - destruct (Z.gtb_spec 0 (maxStreak s)); lia.
Qed.

Lemma afterSubmissions_invariant (results : list bool) (s : UserStats) :
  statsInvariant s -> statsInvariant (afterSubmissions results s).
Proof.
  revert s. unfold afterSubmissions.
  induction results as [| r results IH]; intros s Hs; cbn [fold_left].
  - exact Hs.
  - apply IH, updateStats_invariant, Hs.
Qed.

(** C4.  A submission on an open game with a question on display adds 1
    to gamesPlayed; a submitted answer equal to the question's answer adds
    1 to wins and to currentStreak, any other sets currentStreak to 0;
    then maxStreak becomes currentStreak if that is larger. *)
Theorem first_submission_updates_statistics (now : Z) (a : option string)
  (p : Page) (cq : Question) :
  gameFinished (gameState p) = false ->
  currentQuestion p = Some cq ->
  let won := strictEq a (answer cq) in
  let s := userStats p in
  let s' := userStats (fst (handleAnswerSubmission now a p)) in
  s' = updateStats won s
  /\ gamesPlayed s' = gamesPlayed s + 1
  /\ wins s' = (if won then wins s + 1 else wins s)
  /\ currentStreak s' = (if won then currentStreak s + 1 else 0)
  /\ maxStreak s'
     = (if currentStreak s' >? maxStreak s then currentStreak s'
        else maxStreak s).
Proof.
  intros Hf Hq won s s'.
  assert (E : s' = updateStats won s).
  { subst s'. destruct (handleAnswerSubmission_open now a p cq Hf Hq)
      as [ts ->]. reflexivity. }
  split; [exact E |]. rewrite E. apply updateStats_fields.
Qed.

Lemma first_submission_updates_statistics_witness :
  userStats (fst (handleAnswerSubmission july1_noon (Some "A"%string)
                    openPage))
  = mkUserStats 8 5 0 4.
Proof.
  apply (first_submission_updates_statistics july1_noon (Some "A"%string)
           openPage sampleQuestion); reflexivity.
Defined.

(** C5.  From statistics with gamesPlayed >= 0, 0 <= wins <= gamesPlayed,
    currentStreak >= 0 and maxStreak >= currentStreak, one update, of a
    correct or an incorrect answer, gives statistics with
    wins <= gamesPlayed and maxStreak >= currentStreak; and so does every
    sequence of updates from the all-zero statistics. *)
Theorem statistics_invariant :
  (forall s isCorrect,
      statsInvariant s ->
      let s' := updateStats isCorrect s in
      statsInvariant s'
      /\ wins s' <= gamesPlayed s' /\ currentStreak s' <= maxStreak s')
  /\ (forall results,
        let s := afterSubmissions results initialUserStats in
        wins s <= gamesPlayed s /\ currentStreak s <= maxStreak s).
Proof.
  split.
  - intros s isCorrect Hs s'.
    pose proof (updateStats_invariant isCorrect s Hs) as H.
    split; [exact H |]. unfold statsInvariant in H. subst s'. lia.
  - intros results s.
    assert (H : statsInvariant s).
    { apply afterSubmissions_invariant. unfold statsInvariant. cbn. lia. }
    unfold statsInvariant in H. lia.
Qed.

Lemma statistics_invariant_witness :
  wins (updateStats false (mkUserStats 7 5 3 4))
  <= gamesPlayed (updateStats false (mkUserStats 7 5 3 4))
  /\ currentStreak (updateStats false (mkUserStats 7 5 3 4))
     <= maxStreak (updateStats false (mkUserStats 7 5 3 4)).
Proof.
  apply (proj1 statistics_invariant (mkUserStats 7 5 3 4) false).
  unfold statsInvariant. cbn. lia.
Defined.

(** ** The session state *)

Lemma dispatch_finished (p : Page) (e : Z * GameEvent) :
  gameFinished (gameState p) = true -> dispatch p e = p.
Proof.
  intros H. unfold dispatch, optionsContainer_click, document_keydown.
  rewrite H. destruct (snd e) as [[letter |] | k]; reflexivity.
Qed.

Lemma events_finished (evs : list (Z * GameEvent)) (p : Page) :
  gameFinished (gameState p) = true -> fold_left dispatch evs p = p.
Proof.
  intros H. induction evs as [| e evs IH]; cbn [fold_left].
  - reflexivity.
  - rewrite (dispatch_finished p e H). exact IH.
Qed.

Lemma setDailyQuestion_reopens (questionId : option Z) (p : Page)
  (q : Question) :
  find (fun q => match questionId with
                 | Some i => id q =? i
                 | None => false
                 end) (questions p) = Some q ->
  gameFinished (gameState (setDailyQuestionButton_click questionId p)) = false
  /\ currentQuestion (setDailyQuestionButton_click questionId p) = Some q.
Proof.
  intros H. unfold setDailyQuestionButton_click. rewrite H.
  split; reflexivity.
Qed.

(** C9, amended.  On a finished game the submission handler returns at
    once and changes nothing, neither the session state nor the statistics
    nor anything else of the page.  Hence after a first call of the
    handler a second call, and any sequence of clicks and key presses,
    leave the page as the first call left it: within one page load the
    session state is written once, for as long as the game stays marked
    finished.  The admin's set-daily-question action, on an id of the
    store, clears the mark. *)
Theorem submission_after_finish_is_noop (now : Z) (a : option string)
  (p : Page) :
  (gameFinished (gameState p) = true ->
   handleAnswerSubmission now a p = (p, Returned))
  /\ (forall now' a',
        let p1 := fst (handleAnswerSubmission now a p) in
        handleAnswerSubmission now' a' p1 = (p1, Returned))
  /\ (forall later,
        let p1 := fst (handleAnswerSubmission now a p) in
        fold_left dispatch later p1 = p1)
  /\ (forall questionId q,
        let p1 := fst (handleAnswerSubmission now a p) in
        find (fun q => match questionId with
                       | Some i => id q =? i
                       | None => false
                       end) (questions p1) = Some q ->
        gameFinished (gameState (setDailyQuestionButton_click questionId p1))
        = false).
Proof.
  split; [apply handleAnswerSubmission_finished |]. split; [| split].
  - intros now' a' p1. apply handleAnswerSubmission_finished.
    apply handleAnswerSubmission_finishes.
  - intros later p1. apply events_finished.
    apply handleAnswerSubmission_finishes.
  - intros questionId q p1 H.
    apply (setDailyQuestion_reopens questionId p1 q H).
Qed.

Lemma submission_after_finish_is_noop_witness :
  handleAnswerSubmission july1_noon (Some "A"%string) finishedPage
  = (finishedPage, Returned).
Proof.
  apply (proj1 (submission_after_finish_is_noop july1_noon
                  (Some "A"%string) finishedPage)).
  reflexivity.
Defined.

(** C9 as worded fails: within one page load on one day, after the admin
    set another daily question, a second submission writes the session
    state and the statistics a second time. *)
Lemma session_state_written_twice :
  gameState answeredPage
  = mkGameState true (Some july1_noon) (Some "B"%string)
  /\ userStats answeredPage = mkUserStats 1 1 1 1
  /\ gameFinished (gameState overriddenPage) = false
  /\ gameState answeredAgainPage
     = mkGameState true (Some (july1_noon + 60000)) (Some "C"%string)
  /\ userStats answeredAgainPage = mkUserStats 2 2 2 2
  /\ toDateString (fixedZone 0) july1_noon
     = toDateString (fixedZone 0) (july1_noon + 60000).
Proof. repeat split; vm_compute; reflexivity. Qed.

(** C7.  At startup, with a session state in storage: if the local
    calendar date (year, month, day) of its timestamp differs from today's,
    the page keeps its initial session state, which is not completed; if
    the two dates are equal, the stored state becomes the page's session
    state. *)
Theorem loadGameState_reconciliation (tz : TimeZone) (now : Z) (s : Storage)
  (saved : GameState) :
  oatdleGameState s = Some saved ->
  let p := loadGameState tz now s (loadStats s initialPage) in
  (calendarDate tz (newDate1 (lastPlayedTs saved)) <> calendarDate tz now ->
   gameState p = initialGameState /\ gameFinished (gameState p) = false)
  /\ (calendarDate tz (newDate1 (lastPlayedTs saved)) = calendarDate tz now ->
      gameState p = saved).
Proof.
  intros Hs p. subst p. unfold loadGameState. rewrite Hs.
  destruct (DateString_eqb
              (toDateString tz (newDate1 (lastPlayedTs saved)))
              (toDateString tz now)) eqn:E.
  - apply DateString_eqb_eq, toDateString_calendarDate in E.
    split; [intros H; contradiction | intros _; reflexivity].
  - split.
    + intros _. unfold loadStats.
      destruct (oatdleStats s); split; reflexivity.
    + intros H. apply toDateString_calendarDate, DateString_eqb_eq in H.
      congruence.
Qed.

Lemma loadGameState_reconciliation_witness :
  gameState
    (loadGameState newYork2024 (july1_noon + msPerDay) storageAtNoon
       (loadStats storageAtNoon initialPage)) = initialGameState
  /\ gameState
       (loadGameState newYork2024 (july1_noon + msPerHour) storageAtNoon
          (loadStats storageAtNoon initialPage)) = savedAtNoon.
Proof.
  split.
  - apply (loadGameState_reconciliation newYork2024 (july1_noon + msPerDay)
             storageAtNoon savedAtNoon eq_refl).
    vm_compute. discriminate.
  - apply (loadGameState_reconciliation newYork2024 (july1_noon + msPerHour)
             storageAtNoon savedAtNoon eq_refl).
    vm_compute. reflexivity.
Defined.

(** A reload of a page whose stored game was finished today, with a
    question to display, passes the stored answer through the statistics
    update once more. *)
Lemma reload_updates_statistics (tz : TimeZone) (tLoad tSelect tRestore : Z)
  (adminParam : bool) (qs : list Question) (w : World) (saved : GameState)
  (cq : Question) :
  oatdleGameState (storage w) = Some saved ->
  gameFinished saved = true ->
  toDateString tz (newDate1 (lastPlayedTs saved)) = toDateString tz tLoad ->
  getDailyQuestion tz tSelect (Some qs) = Some cq ->
  userStats
    (page (fst (reload tz tLoad tSelect tRestore adminParam (Some qs) w)))
  = updateStats (strictEq (lastPlayedAnswer saved) (answer cq))
      (match oatdleStats (storage w) with
       | Some stats => stats
       | None => initialUserStats
       end).
Proof.
  intros Hs Hfin Hday Hsel. unfold reload, init.
  unfold loadGameState. rewrite Hs.
  apply DateString_eqb_eq in Hday. rewrite Hday.
  cbn [fetchQuestions]. rewrite Hsel.
  set (p0 := set_questions qs
               (set_gameState saved (loadStats (storage w) initialPage))).
  set (p1 := if adminParam then _ else p0).
  assert (Hg : gameState p1 = saved) by (subst p1; destruct adminParam; reflexivity).
  assert (Hu : userStats p1 = userStats (loadStats (storage w) initialPage))
    by (subst p1; destruct adminParam; reflexivity).
  clearbody p1.
  unfold restoreGameState.
  replace (gameFinished (gameState (displayQuestion (Some cq) p1)))
    with true by (cbn; rewrite Hg, Hfin; reflexivity).
  match goal with
  | |- context [handleAnswerSubmission ?t ?a ?q] =>
      destruct (handleAnswerSubmission_open t a q cq eq_refl eq_refl)
        as [ts Hts]; rewrite Hts
  end.
  cbn [fst page userStats]. cbn. rewrite Hg, Hu.
  unfold loadStats. destruct (oatdleStats (storage w)); reflexivity.
Qed.

(** C1, at the failing input.  One question with answer B, empty storage;
    the player opens the page, clicks B and lets the timeouts run: one game
    played, in memory and in storage.  Each reload later the same day,
    timeouts run, adds one more game, one more win and one more day of
    streak. *)
Theorem reload_counts_the_game_again :
  userStats (page afterAnswer) = mkUserStats 1 1 1 1
  /\ oatdleStats (storage afterAnswer) = Some (mkUserStats 1 1 1 1)
  /\ toDateString (fixedZone 0) (july1_noon + 1000)
     = toDateString (fixedZone 0) (july1_noon + 120000)
  /\ userStats (page afterReload) = mkUserStats 2 2 2 2
  /\ oatdleStats (storage afterReload) = Some (mkUserStats 2 2 2 2)
  /\ userStats (page afterSecondReload) = mkUserStats 3 3 3 3
  /\ oatdleStats (storage afterSecondReload) = Some (mkUserStats 3 3 3 3).
Proof. repeat split; vm_compute; reflexivity. Qed.

(** ** Sharing *)

(** C10.  On a finished game with a question on display, the number in
    the text the share handler copies at an instant is the day number
    [dayOfYearAt] of that instant, and the selector at the same instant
    returns the question at that number's remainder by the size of the
    bank: both come from the same day-of-year formula. *)
Theorem share_number_is_selector_day (tz : TimeZone) (now : Z) (p : Page)
  (cq : Question) :
  gameFinished (gameState p) = true ->
  currentQuestion p = Some cq ->
  (exists emoji,
      shareButton_click tz now p
      = (p, Some ("OATdle #" ++ numberToString (dayOfYearAt tz now)
                  ++ newline ++ emoji)%string, Returned))
  /\ (forall qs,
        qs <> [] ->
        getDailyQuestion tz now (Some qs)
        = jsIndex qs (Z.rem (dayOfYearAt tz now) (Z.of_nat (length qs)))).
Proof.
  intros Hf Hq. split.
  - unfold shareButton_click. rewrite Hf, Hq. cbn [negb].
    eexists. reflexivity.
  - intros qs Hqs. apply getDailyQuestion_index, Hqs.
Qed.

Lemma share_number_is_selector_day_witness :
  getDailyQuestion newYork2024 july1_noon (Some sampleBank)
  = jsIndex sampleBank
      (Z.rem (dayOfYearAt newYork2024 july1_noon)
             (Z.of_nat (length sampleBank))).
Proof.
  apply (proj2 (share_number_is_selector_day newYork2024 july1_noon
                  finishedPage sampleQuestion eq_refl eq_refl)).
  discriminate.
Defined.

(** ** The admin panel *)

Lemma truthy_toUpperCase (s : string) : truthy (toUpperCase s) = truthy s.
Proof. destruct s; reflexivity. Qed.

Lemma MathMax_first (r : list Z) (x : Z) : x <= MathMax x r.
Proof.
  unfold MathMax. revert x. induction r as [| z r IH]; intros x.
  - cbn. lia.
  - cbn [fold_left]. pose proof (IH (Z.max x z)). lia.
Qed.

Lemma MathMax_upper (r : list Z) (x y : Z) :
  In y (x :: r) -> y <= MathMax x r.
Proof.
  intros [-> | H]; [apply MathMax_first |].
  unfold MathMax. revert x. induction r as [| z r IH]; intros x.
  - destruct H.
  - cbn [fold_left]. destruct H as [-> | H].
    + pose proof (MathMax_first r (Z.max x y)). unfold MathMax in *. lia.
    + apply IH, H.
Qed.

Lemma MathMax_attained (r : list Z) (x : Z) : In (MathMax x r) (x :: r).
Proof.
  unfold MathMax. revert x. induction r as [| z r IH]; intros x.
  - left. reflexivity.
  - cbn [fold_left]. destruct (IH (Z.max x z)) as [H | H].
    + rewrite <- H. destruct (Z.max_spec x z) as [[_ ->] | [_ ->]].
      * right. left. reflexivity.
      * left. reflexivity.
    + right. right. exact H.
Qed.

Lemma nextId_fresh (qs : list Question) (q : Question) :
  In q qs -> id q < nextId qs.
Proof.
  intros H. unfold nextId. apply (in_map id) in H.
  destruct (map id qs) as [| x r]; [destruct H |].
  pose proof (MathMax_upper r x (id q) H). lia.
Qed.

Lemma nextId_is_max_plus_one (qs : list Question) :
  qs <> [] -> exists q, In q qs /\ nextId qs = id q + 1.
Proof.
  intros H. unfold nextId.
  destruct (map id qs) as [| x r] eqn:E.
  - destruct qs; [congruence | discriminate].
  - pose proof (MathMax_attained r x) as Hin. rewrite <- E in Hin.
    apply in_map_iff in Hin. destruct Hin as (q & Hq & Hin).
    exists q. split; [exact Hin | lia].
Qed.

(** C6, amended.  The add-question handler gives the new question the id
    max existing id + 1, or 1 on an empty store, an id no existing
    question has.  It accepts exactly when the stem, the answer field and
    the four option texts are all non-empty: the question, its answer put
    in upper case, is appended to the store and no message is shown.
    Otherwise it shows the message asking to fill out all fields and the
    store is unchanged. *)
Theorem addQuestion_accepts_filled_forms (form : NewQuestionForm)
  (p : Page) :
  let newQuestion :=
    mkQuestion (nextId (questions p))
      (newQuestionSubject form) (newQuestionDifficulty form)
      (newQuestionStem form)
      [("A", newOptionA form); ("B", newOptionB form);
       ("C", newOptionC form); ("D", newOptionD form)]%string
      (toUpperCase (newQuestionAnswer form))
      (newQuestionExplanation form) in
  (questions p = [] -> nextId (questions p) = 1)
  /\ (questions p <> [] ->
      exists q, In q (questions p) /\ nextId (questions p) = id q + 1)
  /\ (forall q, In q (questions p) -> id q < nextId (questions p))
  /\ (formFilled form = true ->
      questions (addQuestionButton_click form p)
      = questions p ++ [newQuestion]
      /\ alerts (addQuestionButton_click form p) = alerts p)
  /\ (formFilled form = false ->
      questions (addQuestionButton_click form p) = questions p
      /\ alerts (addQuestionButton_click form p)
         = alerts p ++ [fillOutAllFields]).
Proof.
  intros newQuestion.
  split; [intros H; unfold nextId; rewrite H; reflexivity |].
  split; [apply nextId_is_max_plus_one |].
  split; [intros q; apply nextId_fresh |].
  assert (E : addQuestionButton_click form p
              = if formFilled form
                then set_questions (questions p ++ [newQuestion]) p
                else alert fillOutAllFields p).
  { unfold addQuestionButton_click, formFilled.
    cbn [question answer options optionOf String.eqb Ascii.eqb Bool.eqb].
    rewrite truthy_toUpperCase. reflexivity. }
  rewrite E. split; intros ->; split; reflexivity.
Qed.

Lemma addQuestion_accepts_filled_forms_witness :
  questions (addQuestionButton_click formWithoutStem adminPage) = sampleBank
  /\ alerts (addQuestionButton_click formWithoutStem adminPage)
     = [fillOutAllFields].
Proof.
  apply (addQuestion_accepts_filled_forms formWithoutStem adminPage).
  reflexivity.
Defined.

(** C6 as worded fails: a form with every field filled and the answer
    letter E, which is no choice letter, is accepted; the store grows by a
    question whose answer is E and no message is shown. *)
Lemma addQuestion_accepts_invalid_letter :
  validAnswerLetter (toUpperCase (newQuestionAnswer formWithAnswerE)) = false
  /\ map answer (questions (addQuestionButton_click formWithAnswerE adminPage))
     = ["B"; "C"; "E"]%string
  /\ map id (questions (addQuestionButton_click formWithAnswerE adminPage))
     = [1; 2; 3]
  /\ questions (addQuestionButton_click formWithAnswerE adminPage)
     <> questions adminPage
  /\ alerts (addQuestionButton_click formWithAnswerE adminPage) = [].
Proof.
  repeat split; try (vm_compute; reflexivity).
  vm_compute. discriminate.
Qed.

(** * Further properties *)

(** ** The timeouts of a submission *)

Lemma insertTimer_last (t : Timer) (ts : list Timer) :
  (forall u, In u ts -> due u <= due t) -> insertTimer t ts = ts ++ [t].
Proof.
  induction ts as [| u ts IH]; intros H; cbn [insertTimer app].
  - reflexivity.
  - replace (due t <? due u) with false
      by (symmetry; apply Z.ltb_ge, H; left; reflexivity).
    rewrite IH by (intros v Hv; apply H; right; exact Hv). reflexivity.
Qed.

Lemma set_timers_twice (a b : list Timer) (p : Page) :
  set_timers a (set_timers b p) = set_timers a p.
Proof. reflexivity. Qed.

(** The reveal timeouts are queued in the order of their indices. *)
Lemma fold_setTimeout_timers (now : Z) (K : nat -> Task) (k a : nat)
  (p : Page) :
  (forall u, In u (timers p) -> due u <= now + Z.of_nat a * 300) ->
  fold_left (fun p index => setTimeout now (K index) (Z.of_nat index * 300) p)
            (seq a k) p
  = set_timers
      (timers p
       ++ map (fun index => mkTimer (now + Z.of_nat index * 300) (K index))
              (seq a k))
      p.
Proof.
  revert a p. induction k as [| k IH]; intros a p H; cbn [seq fold_left map].
  - rewrite app_nil_r. destruct p; reflexivity.
  - rewrite IH.
    + unfold setTimeout. rewrite set_timers_twice.
      cbn [timers set_timers].
      rewrite insertTimer_last by (intros u Hu; cbn [due]; apply H, Hu).
      rewrite <- app_assoc. reflexivity.
    + intros u Hu. unfold setTimeout in Hu. cbn [timers set_timers] in Hu.
      rewrite insertTimer_last in Hu
        by (intros v Hv; cbn [due]; apply H, Hv).
      apply in_app_or in Hu. destruct Hu as [Hu | [<- | []]].
      * pose proof (H u Hu). lia.
      * cbn [due]. lia.
Qed.

(** The page a submission leaves, timeouts included, when none was
    pending. *)
Lemma handleAnswerSubmission_schedule (now : Z) (a : option string)
  (p : Page) (cq : Question) :
  gameFinished (gameState p) = false ->
  currentQuestion p = Some cq ->
  timers p = [] ->
  let isCorrect := strictEq a (answer cq) in
  let n := length (optionsContainer (dom p)) in
  handleAnswerSubmission now a p
  = (mkPage (questions p) (currentQuestion p)
            (mkGameState true (Some now) a)
            (updateStats isCorrect (userStats p))
            (isAdmin p) (dom p)
            (map (revealTimer now a (answer cq) isCorrect) (seq 0 n)
             ++ [feedbackTimer now isCorrect n])
            (intervals p) (alerts p),
     Returned).
Proof.
  intros Hf Hq Ht isCorrect n. unfold handleAnswerSubmission. rewrite Hf.
  cbn [set_gameState set_gameFinished set_lastPlayedTs set_lastPlayedAnswer
       currentQuestion gameState gameFinished lastPlayedTs lastPlayedAnswer].
  rewrite Hq.
  rewrite (fold_setTimeout_timers now
             (fun index => RevealOption index a (answer cq)
                             (strictEq a (answer cq)))).
  - unfold setTimeout. rewrite set_timers_twice.
    cbn [timers set_timers set_userStats set_gameState dom userStats
         questions currentQuestion gameState isAdmin intervals alerts].
    rewrite Ht. cbn [app].
    rewrite insertTimer_last.
    + rewrite <- Hq. reflexivity.
    + intros u Hu. apply in_map_iff in Hu. destruct Hu as (i & <- & Hi).
      apply in_seq in Hi. cbn [due]. lia.
  - cbn [timers set_userStats set_gameState]. rewrite Ht. intros u [].
Qed.

Lemma updateNth_app {A : Type} (f : A -> A) (pre post : list A) :
  updateNth (length pre) f (pre ++ post)
  = pre ++ match post with
           | [] => []
           | x :: r => f x :: r
           end.
Proof.
  induction pre as [| y pre IH]; cbn [length app updateNth].
  - destruct post; reflexivity.
  - rewrite IH. destruct post; reflexivity.
Qed.

(** Updating every index once applies the function to every element. *)
Lemma fold_updateNth {A : Type} (f : A -> A) (post pre : list A) :
  fold_left (fun l i => updateNth i f l) (seq (length pre) (length post))
            (pre ++ post)
  = pre ++ map f post.
Proof.
  revert pre. induction post as [| x post IH]; intros pre;
    cbn [length seq fold_left map].
  - reflexivity.
  - rewrite updateNth_app.
    change (pre ++ f x :: post) with (pre ++ [f x] ++ post).
    rewrite app_assoc.
    replace (S (length pre)) with (length (pre ++ [f x]))
      by (rewrite length_app; cbn; lia).
    rewrite IH. rewrite <- app_assoc. reflexivity.
Qed.

(** The reveal timeouts touch the option elements and nothing else. *)
Lemma fire_reveals (now : Z) (a : option string) (correct : string)
  (isCorrect : bool) (l : list nat) (w : World) :
  fold_left (fun w t => fireTask (task t) w)
            (map (revealTimer now a correct isCorrect) l) w
  = mkWorld
      (set_dom
         (set_optionsContainer
            (fold_left (fun oc i => updateNth i (revealWith a correct isCorrect) oc)
                       l (optionsContainer (dom (page w))))
            (dom (page w)))
         (page w))
      (storage w).
Proof.
  revert w. induction l as [| i l IH]; intros w; cbn [map fold_left].
  - destruct w as [[qs c g u ad [] ts iv al] s]. reflexivity.
  - rewrite IH. destruct w as [[qs c g u ad [] ts iv al] s]. reflexivity.
Qed.

(** A submission on an open game, and its timeouts run to the end. *)
Lemma submission_then_timeouts (now : Z) (a : option string) (p : Page)
  (cq : Question) (s : Storage) :
  gameFinished (gameState p) = false ->
  currentQuestion p = Some cq ->
  timers p = [] ->
  let isCorrect := strictEq a (answer cq) in
  let d := dom p in
  runTimers (mkWorld (fst (handleAnswerSubmission now a p)) s)
  = mkWorld
      (mkPage (questions p) (currentQuestion p)
              (mkGameState true (Some now) a)
              (updateStats isCorrect (userStats p))
              (isAdmin p)
              (mkDom (questionSubject d) (questionDifficulty d)
                     (questionStem d)
                     (map (revealWith a (answer cq) isCorrect)
                          (optionsContainer d))
                     (if isCorrect then "Correct!" else "Incorrect!")
                     (explanation cq) true true (adminModalDisplay d))
              [] (S (intervals p)) (alerts p))
      (mkStorage (Some (updateStats isCorrect (userStats p)))
                 (Some (mkGameState true (Some now) a))).
Proof.
  intros Hf Hq Ht isCorrect d.
  rewrite (handleAnswerSubmission_schedule now a p cq Hf Hq Ht).
  fold isCorrect. unfold runTimers. cbn [fst page timers storage].
  rewrite fold_left_app, fire_reveals.
  cbn [page dom optionsContainer set_timers storage].
  pose proof (fold_updateNth (revealWith a (answer cq) isCorrect)
                (optionsContainer (dom p)) []) as Hmap.
  cbn [length app] in Hmap. rewrite Hmap.
  cbn [app fold_left feedbackTimer task fireTask page set_dom
       set_feedbackText set_optionsContainer currentQuestion dom].
  rewrite Hq. reflexivity.
Qed.

(** X1.  A submission on an open game with a question on display and no
    timeout pending, followed by its timeouts: storage then holds the
    updated statistics and the finished session state, the same the page
    holds; the feedback says Correct! exactly for the question's answer,
    the explanation of the question is shown, one countdown runs and no
    timeout is left. *)
Theorem submission_is_saved_by_its_timeouts (now : Z) (a : option string)
  (p : Page) (cq : Question) (s : Storage) :
  gameFinished (gameState p) = false ->
  currentQuestion p = Some cq ->
  timers p = [] ->
  let w := runTimers (mkWorld (fst (handleAnswerSubmission now a p)) s) in
  let stats := updateStats (strictEq a (answer cq)) (userStats p) in
  let state := mkGameState true (Some now) a in
  storage w = mkStorage (Some stats) (Some state)
  /\ userStats (page w) = stats
  /\ gameState (page w) = state
  /\ feedbackText (dom (page w))
     = (if strictEq a (answer cq) then "Correct!" else "Incorrect!")%string
  /\ explanationText (dom (page w)) = explanation cq
  /\ explanationDisplay (dom (page w)) = true
  /\ countdownDisplay (dom (page w)) = true
  /\ intervals (page w) = S (intervals p)
  /\ timers (page w) = [].
Proof.
  intros Hf Hq Ht w stats state. subst w.
  rewrite (submission_then_timeouts now a p cq s Hf Hq Ht).
  cbn [storage page userStats gameState dom feedbackText explanationText
       explanationDisplay countdownDisplay intervals timers].
  repeat split.
Qed.

Lemma submission_is_saved_by_its_timeouts_witness :
  storage (runTimers
             (mkWorld (fst (handleAnswerSubmission july1_noon
                              (Some "A"%string) openPage))
                      emptyStorage))
  = mkStorage (Some (mkUserStats 8 5 0 4))
              (Some (mkGameState true (Some july1_noon) (Some "A"%string))).
Proof.
  apply (submission_is_saved_by_its_timeouts july1_noon (Some "A"%string)
           openPage sampleQuestion emptyStorage); reflexivity.
Defined.

Lemma addClass_dataOption (c : string) (o : OptionEl) :
  dataOption (addClass c o) = dataOption o.
Proof. unfold addClass. destruct (existsb _ _); reflexivity. Qed.

Lemma addClass_has (c : string) (o : OptionEl) :
  In c (classList (addClass c o)).
Proof.
  unfold addClass. destruct (existsb (String.eqb c) (classList o)) eqn:E.
  - apply existsb_exists in E. destruct E as (x & Hx & Hc).
    apply String.eqb_eq in Hc. subst x. exact Hx.
  - cbn [classList]. apply in_or_app. right. left. reflexivity.
Qed.

Lemma addClass_keeps (c x : string) (o : OptionEl) :
  In x (classList o) -> In x (classList (addClass c o)).
Proof.
  unfold addClass. destruct (existsb _ _); cbn [classList]; intros H.
  - exact H.
  - apply in_or_app. left. exact H.
Qed.

Lemma addClass_only (c x : string) (o : OptionEl) :
  In x (classList (addClass c o)) -> x = c \/ In x (classList o).
Proof.
  unfold addClass. destruct (existsb _ _); cbn [classList]; intros H.
  - right. exact H.
  - apply in_app_or in H. destruct H as [H | [H | []]]; auto.
Qed.

(** X2.  After the timeouts of such a submission every option element is
    still in its place with its letter, and is revealed.  The element of
    the question's answer is marked correct.  A selected element of
    another letter is marked incorrect.  An element neither selected nor
    of the answer gains no class but reveal. *)
Theorem reveal_marks_the_options (now : Z) (a : option string) (p : Page)
  (cq : Question) (s : Storage) (i : nat) (o : OptionEl) :
  gameFinished (gameState p) = false ->
  currentQuestion p = Some cq ->
  timers p = [] ->
  nth_error (optionsContainer (dom p)) i = Some o ->
  let w := runTimers (mkWorld (fst (handleAnswerSubmission now a p)) s) in
  exists o',
    nth_error (optionsContainer (dom (page w))) i = Some o'
    /\ length (optionsContainer (dom (page w)))
       = length (optionsContainer (dom p))
    /\ dataOption o' = dataOption o
    /\ optionText o' = optionText o
    /\ In "reveal"%string (classList o')
    /\ (forall c, In c (classList o) -> In c (classList o'))
    /\ (dataOption o = answer cq -> In "correct"%string (classList o'))
    /\ (strictEq a (dataOption o) = true -> dataOption o <> answer cq ->
        In "incorrect"%string (classList o'))
    /\ (strictEq a (dataOption o) = false -> dataOption o <> answer cq ->
        forall c, In c (classList o') ->
                  c = "reveal"%string \/ In c (classList o)).
Proof.
  intros Hf Hq Ht Ho w. subst w.
  rewrite (submission_then_timeouts now a p cq s Hf Hq Ht).
  cbn [page dom optionsContainer].
  exists (revealWith a (answer cq) (strictEq a (answer cq)) o).
  split; [apply map_nth_error, Ho |].
  split; [apply length_map |].
  unfold revealWith. rewrite addClass_dataOption.
  cbv zeta.
  assert (Hr : In "reveal"%string (classList (addClass "reveal" o)))
    by apply addClass_has.
  assert (Ht' : forall c o1, optionText (addClass c o1) = optionText o1)
    by (intros c o1; unfold addClass; destruct (existsb _ _); reflexivity).
  destruct (strictEq a (dataOption o)) eqn:Es.
  - assert (Ea : a = Some (dataOption o)).
    { destruct a as [x |]; [| discriminate]. cbn [strictEq] in Es.
      apply String.eqb_eq in Es. congruence. }
    rewrite !addClass_dataOption, !Ht'.
    split; [reflexivity |]. split; [reflexivity |].
    split; [apply addClass_keeps, Hr |].
    split; [intros c Hc; apply addClass_keeps, addClass_keeps, Hc |].
    split; [| split; [| intros Hx; discriminate Hx]].
    + intros He. rewrite Ea. cbn [strictEq]. rewrite He, String.eqb_refl.
      apply addClass_has.
    + intros _ Hne. rewrite Ea. cbn [strictEq].
      replace (String.eqb (dataOption o) (answer cq)) with false
        by (symmetry; apply String.eqb_neq, Hne).
      apply addClass_has.
  - destruct (String.eqb (dataOption o) (answer cq)) eqn:Ec.
    + rewrite !addClass_dataOption, !Ht'.
      split; [reflexivity |]. split; [reflexivity |].
      split; [apply addClass_keeps, Hr |].
      split; [intros c Hc; apply addClass_keeps, addClass_keeps, Hc |].
      split; [intros _; apply addClass_has |].
      split; [intros Hx; discriminate Hx |].
      intros _ Hne. apply String.eqb_eq in Ec. contradiction.
    + rewrite !addClass_dataOption, !Ht'.
      split; [reflexivity |]. split; [reflexivity |].
      split; [exact Hr |].
      split; [intros c Hc; apply addClass_keeps, Hc |].
      split; [intros He; apply String.eqb_neq in Ec; contradiction |].
      split; [intros Hx; discriminate Hx |].
      intros _ _ c Hc. apply addClass_only in Hc. exact Hc.
Qed.

Lemma reveal_marks_the_options_witness :
  exists o',
    nth_error
      (optionsContainer
         (dom (page (runTimers
                       (mkWorld (fst (handleAnswerSubmission july1_noon
                                        (Some "A"%string) openPage))
                                emptyStorage))))) 1
    = Some o'
    /\ In "correct"%string (classList o').
Proof.
  destruct (reveal_marks_the_options july1_noon (Some "A"%string) openPage
              sampleQuestion emptyStorage 1
              (mkOptionEl "B" "Mitochondrion" ["option"%string])
              eq_refl eq_refl eq_refl eq_refl)
    as (o' & Hn & _ & _ & _ & _ & _ & Hc & _).
  exists o'. split; [exact Hn | apply Hc; reflexivity].
Defined.

(** ** Startup *)

(** The page [init] hands to [restoreGameState]. *)
Lemma init_before_restore (tz : TimeZone) (tLoad tSelect tRestore : Z)
  (adminParam : bool) (response : option (list Question)) (s : Storage) :
  exists p,
    init tz tLoad tSelect tRestore adminParam response s
    = (mkWorld (fst (restoreGameState tRestore p)) s,
       snd (restoreGameState tRestore p))
    /\ gameState p = gameState (loadGameState tz tLoad s initialPage)
    /\ userStats p = storedStats s
    /\ currentQuestion p = getDailyQuestion tz tSelect (Some (bankOf response))
    /\ questions p = bankOf response
    /\ timers p = []
    /\ isAdmin p = false.
Proof.
  unfold init.
  destruct (fetchQuestions response
              (loadGameState tz tLoad s (loadStats s initialPage)))
    as [p1 loaded] eqn:Ef.
  assert (H1 : loaded = bankOf response
               /\ gameState p1
                  = gameState (loadGameState tz tLoad s initialPage)
               /\ userStats p1 = storedStats s
               /\ currentQuestion p1 = None /\ questions p1 = bankOf response
               /\ timers p1 = [] /\ isAdmin p1 = false).
  { unfold fetchQuestions, loadGameState, loadStats, storedStats in *.
    destruct response as [data |]; injection Ef as <- <-;
      destruct (oatdleStats s), (oatdleGameState s) as [saved |];
      try destruct (DateString_eqb _ _); repeat split. }
  destruct H1 as (-> & Hg & Hu & Hc & Hqs & Ht & Ha).
  set (p2 := if adminParam then _ else p1).
  assert (H2 : gameState p2 = gameState p1 /\ userStats p2 = userStats p1
               /\ currentQuestion p2 = None /\ questions p2 = questions p1
               /\ timers p2 = timers p1 /\ isAdmin p2 = isAdmin p1).
  { subst p2. destruct adminParam; repeat split; exact Hc. }
  clearbody p2. destruct H2 as (Hg2 & Hu2 & Hc2 & Hqs2 & Ht2 & Ha2).
  exists (displayQuestion (getDailyQuestion tz tSelect (Some (bankOf response)))
                          p2).
  split.
  - destruct (restoreGameState tRestore _) as [p o]. reflexivity.
  - destruct (getDailyQuestion tz tSelect (Some (bankOf response)));
      cbn [displayQuestion gameState userStats currentQuestion questions
           timers isAdmin set_dom set_currentQuestion];
      repeat split; congruence.
Qed.








(** ** The admin panel, continued *)

Lemma addQuestionButton_click_cases (form : NewQuestionForm) (p : Page) :
  addQuestionButton_click form p
  = if formFilled form
    then set_questions
           (questions p
            ++ [mkQuestion (nextId (questions p))
                  (newQuestionSubject form) (newQuestionDifficulty form)
                  (newQuestionStem form)
                  [("A", newOptionA form); ("B", newOptionB form);
                   ("C", newOptionC form); ("D", newOptionD form)]%string
                  (toUpperCase (newQuestionAnswer form))
                  (newQuestionExplanation form)])
           p
    else alert fillOutAllFields p.
Proof.
  unfold addQuestionButton_click, formFilled.
  cbn [question answer options optionOf String.eqb Ascii.eqb Bool.eqb].
  rewrite truthy_toUpperCase. reflexivity.
Qed.

Lemma filter_all {A : Type} (f : A -> bool) (l : list A) :
  (forall x, In x l -> f x = true) -> filter f l = l.
Proof.
  induction l as [| x l IH]; intros H; cbn [filter].
  - reflexivity.
  - rewrite (H x (or_introl eq_refl)), IH; [reflexivity |].
    intros y Hy. apply H. right. exact Hy.
Qed.

(** X6.  Deleting by id keeps, in their order, exactly the questions of
    another id; the question on display, the session state and the
    statistics stay as they are, also when the question on display is the
    one deleted.  An id that is not a number, or that no question has,
    leaves the page as it is. *)
Theorem delete_removes_that_id_only (questionId : option Z) (p : Page) :
  let p' := questionList_click questionId p in
  (forall q, In q (questions p') <->
             In q (questions p) /\ Some (id q) <> questionId)
  /\ currentQuestion p' = currentQuestion p
  /\ gameState p' = gameState p
  /\ userStats p' = userStats p
  /\ ((forall q, In q (questions p) -> Some (id q) <> questionId) -> p' = p).
Proof.
  intros p'. subst p'. unfold questionList_click.
  cbn [questions currentQuestion gameState userStats set_questions].
  split; [| split; [reflexivity | split; [reflexivity |
                                          split; [reflexivity |]]]].
  - intros q. rewrite filter_In. destruct questionId as [i |].
    + rewrite negb_true_iff, Z.eqb_neq. split; intros [H1 H2]; split; auto.
      * congruence.
      * intros E. apply H2. rewrite E. reflexivity.
    + split; [intros [H _]; split; [exact H | discriminate] | intros [H _]; auto].
  - intros H. rewrite filter_all.
    + destruct p; reflexivity.
    + intros q Hq. specialize (H q Hq). destruct questionId as [i |].
      * apply negb_true_iff, Z.eqb_neq. congruence.
      * reflexivity.
Qed.

Lemma delete_removes_that_id_only_witness :
  questionList_click (Some 7) adminPage = adminPage.
Proof.
  apply (delete_removes_that_id_only (Some 7) adminPage).
  intros q [<- | [<- | []]]; discriminate.
Defined.

(** X7.  Adding a question from a filled form and then deleting the id it
    was given leaves the store as it was before. *)
Theorem add_then_delete_restores_the_store (form : NewQuestionForm)
  (p : Page) :
  formFilled form = true ->
  questions (questionList_click (Some (nextId (questions p)))
               (addQuestionButton_click form p))
  = questions p.
Proof.
  intros Hform. rewrite addQuestionButton_click_cases, Hform.
  unfold questionList_click. cbn [questions set_questions].
  rewrite filter_app. cbn [filter id]. rewrite Z.eqb_refl. cbn [negb].
  rewrite app_nil_r. apply filter_all.
  intros q Hq. apply negb_true_iff, Z.eqb_neq.
  pose proof (nextId_fresh (questions p) q Hq). lia.
Qed.

Lemma add_then_delete_restores_the_store_witness :
  questions (questionList_click (Some (nextId (questions adminPage)))
               (addQuestionButton_click formWithAnswerE adminPage))
  = questions adminPage.
Proof.
  apply (add_then_delete_restores_the_store formWithAnswerE adminPage).
  reflexivity.
Defined.

Lemma NoDup_snoc {A : Type} (l : list A) (x : A) :
  NoDup l -> ~ In x l -> NoDup (l ++ [x]).
Proof.
  induction l as [| y l IH]; intros Hl Hx; cbn [app].
  - constructor; [intros [] | constructor].
  - inversion Hl as [| ? ? Hy Hl']; subst. constructor.
    + intros H. apply in_app_or in H. destruct H as [H | [H | []]].
      * contradiction.
      * apply Hx. left. symmetry. exact H.
    + apply IH; [exact Hl' |]. intros H. apply Hx. right. exact H.
Qed.

Lemma NoDup_map_filter {A B : Type} (f : A -> B) (g : A -> bool)
  (l : list A) :
  NoDup (map f l) -> NoDup (map f (filter g l)).
Proof.
  induction l as [| x l IH]; cbn [map filter]; intros H.
  - constructor.
  - inversion H as [| ? ? Hx Hl]; subst.
    destruct (g x); cbn [map]; [| apply IH, Hl].
    constructor; [| apply IH, Hl].
    intros Hin. apply Hx. apply in_map_iff in Hin.
    destruct Hin as (y & Hy & Hin). apply filter_In in Hin.
    apply in_map_iff. exists y. split; [exact Hy | apply Hin].
Qed.

Lemma MathMax_snoc (x y : Z) (r : list Z) :
  MathMax x (r ++ [y]) = Z.max (MathMax x r) y.
Proof. unfold MathMax. rewrite fold_left_app. reflexivity. Qed.

(** X8.  If the questions of the store have pairwise different ids, they
    still have after an add and after a delete; and an accepted add raises
    the next id by one, so successive adds number their questions
    consecutively. *)
Theorem ids_stay_distinct (p : Page) :
  NoDup (map id (questions p)) ->
  (forall form, NoDup (map id (questions (addQuestionButton_click form p))))
  /\ (forall questionId,
         NoDup (map id (questions (questionList_click questionId p))))
  /\ (forall form,
         formFilled form = true ->
         nextId (questions (addQuestionButton_click form p))
         = nextId (questions p) + 1).
Proof.
  intros Hnd. split; [| split].
  - intros form. rewrite addQuestionButton_click_cases.
    destruct (formFilled form); cbn [questions set_questions alert];
      [| exact Hnd].
    rewrite map_app. cbn [map id]. apply NoDup_snoc; [exact Hnd |].
    intros Hin. apply in_map_iff in Hin. destruct Hin as (q & Hq & Hin).
    pose proof (nextId_fresh (questions p) q Hin). lia.
  - intros questionId. unfold questionList_click.
    cbn [questions set_questions]. apply NoDup_map_filter, Hnd.
  - intros form Hform. rewrite addQuestionButton_click_cases, Hform.
    cbn [questions set_questions]. unfold nextId at 1.
    rewrite map_app. cbn [map id].
    destruct (map id (questions p)) as [| x r] eqn:E; cbn [app].
    + unfold nextId. rewrite E. reflexivity.
    + rewrite MathMax_snoc. unfold nextId. rewrite E.
      pose proof (MathMax_first r x). lia.
Qed.

Lemma ids_stay_distinct_witness :
  NoDup (map id (questions
                   (addQuestionButton_click formWithAnswerE adminPage))).
Proof.
  apply (ids_stay_distinct adminPage).
  repeat constructor; cbn; intuition discriminate.
Defined.

(** X9.  Setting the daily question by an id of the store puts the first
    question of that id on display and reopens the game; the store, the
    statistics, the recorded timestamp and answer and the pending timeouts
    stay.  An id that is not a number, or that no question has, only
    shows the message that the question was not found. *)
Theorem setDailyQuestion_previews (questionId : option Z) (p : Page) :
  let p' := setDailyQuestionButton_click questionId p in
  (forall q,
      find (fun q => match questionId with
                     | Some i => id q =? i
                     | None => false
                     end) (questions p) = Some q ->
      currentQuestion p' = Some q
      /\ In q (questions p) /\ questionId = Some (id q)
      /\ gameFinished (gameState p') = false
      /\ lastPlayedTs (gameState p') = lastPlayedTs (gameState p)
      /\ lastPlayedAnswer (gameState p') = lastPlayedAnswer (gameState p)
      /\ questions p' = questions p
      /\ userStats p' = userStats p
      /\ timers p' = timers p
      /\ alerts p' = alerts p)
  /\ ((forall q, In q (questions p) -> Some (id q) <> questionId) ->
      p' = alert "Question not found." p).
Proof.
  intros p'. subst p'. unfold setDailyQuestionButton_click. split.
  - intros q Hfind. rewrite Hfind. apply find_some in Hfind.
    destruct Hfind as [Hin Hid].
    destruct questionId as [i |]; [| discriminate].
    apply Z.eqb_eq in Hid. subst i.
    repeat split. exact Hin.
  - intros H.
    destruct (find _ (questions p)) as [q |] eqn:Hfind; [| reflexivity].
    apply find_some in Hfind. destruct Hfind as [Hin Hid].
    destruct questionId as [i |]; [| discriminate].
    apply Z.eqb_eq in Hid. destruct (H q Hin). congruence.
Qed.

Lemma setDailyQuestion_previews_witness :
  currentQuestion (setDailyQuestionButton_click (Some 2) answeredPage)
  = Some secondQuestion
  /\ setDailyQuestionButton_click (Some 9) adminPage
     = alert "Question not found." adminPage.
Proof.
  split.
  - apply (proj1 (setDailyQuestion_previews (Some 2) answeredPage)
             secondQuestion).
    reflexivity.
  - apply (proj2 (setDailyQuestion_previews (Some 9) adminPage)).
    intros q [<- | [<- | []]]; discriminate.
Defined.

(** ** The daily selector, continued *)

Lemma DaysInYear_bound (y : Z) : 365 <= DaysInYear y <= 366.
Proof.
  unfold DaysInYear.
  destruct (negb (y mod 4 =? 0)), (negb (y mod 100 =? 0)),
    (negb (y mod 400 =? 0)); lia.
Qed.

Lemma LocalTime_after_year_start (tz : TimeZone) (now : Z) :
  localJan0 tz now + msPerDay <= LocalTime tz now.
Proof.
  unfold localJan0.
  pose proof (YearFromDay_spec (Day (LocalTime tz now))) as [H _].
  fold (YearFromTime (LocalTime tz now)) in H.
  set (y := DayFromYear (YearFromTime (LocalTime tz now))) in *.
  unfold Day, msPerDay in *. clearbody y.
  Z.div_mod_to_equations. lia.
Qed.

(** The day number is not negative when the offset of the zone at the
    instant is at most a day ahead of the one at Jan 0. *)
Lemma dayOfYearAt_nonneg (tz : TimeZone) (now : Z) :
  100 <= getFullYear tz now ->
  tz now true - tz (localJan0 tz now) false <= msPerDay ->
  0 <= dayOfYearAt tz now.
Proof.
  intros Hy Ho. unfold dayOfYearAt. rewrite (newDate3_jan0 tz now Hy).
  pose proof (LocalTime_after_year_start tz now) as H.
  unfold UTC, LocalTime, msPerDay in *.
  change (1000 * 60 * 60 * 24) with 86400000.
  apply Z.div_pos; lia.
Qed.

Lemma jsIndex_in_range {A : Type} (xs : list A) (i : Z) :
  0 <= i < Z.of_nat (length xs) ->
  exists x, jsIndex xs i = Some x /\ In x xs.
Proof.
  intros H. unfold jsIndex.
  replace (i <? 0) with false by (symmetry; apply Z.ltb_ge; lia).
  destruct (nth_error xs (Z.to_nat i)) as [x |] eqn:E.
  - exists x. split; [reflexivity | apply (nth_error_In _ _ E)].
  - apply nth_error_None in E. lia.
Qed.

(** X10.  Daylight saving or not: for an instant of a local year from 100
    on, in a zone whose offset at that instant is at most one day ahead of
    its offset at local midnight of Jan 0, the selector returns a question
    of a bank that is not empty. *)
Theorem getDailyQuestion_returns_a_question (tz : TimeZone) (now : Z)
  (qs : list Question) :
  qs <> [] ->
  100 <= getFullYear tz now ->
  tz now true - tz (localJan0 tz now) false <= msPerDay ->
  exists q, getDailyQuestion tz now (Some qs) = Some q /\ In q qs.
Proof.
  intros Hqs Hy Ho.
  rewrite (getDailyQuestion_index tz now qs Hqs).
  apply jsIndex_in_range.
  pose proof (dayOfYearAt_nonneg tz now Hy Ho) as Hd.
  assert (Hn : 0 < Z.of_nat (length qs))
    by (destruct qs; [congruence | cbn [length]; lia]).
  rewrite Z.rem_mod_nonneg by lia. apply Z.mod_pos_bound. exact Hn.
Qed.

Lemma getDailyQuestion_returns_a_question_witness :
  exists q,
    getDailyQuestion newYork2024 july1_0030 (Some sampleBank) = Some q
    /\ In q sampleBank.
Proof.
  apply (getDailyQuestion_returns_a_question newYork2024 july1_0030
           sampleBank).
  - discriminate.
  - vm_compute. discriminate.
  - vm_compute. discriminate.
Defined.

(** X11.  Where the zone has the offset it had at local midnight of Jan 0,
    the day number the selector computes lies between 1 and 366, and it is
    1 exactly on 1 January: days are counted from one, not from zero. *)
Theorem dayOfYear_counts_from_one (tz : TimeZone) (now : Z) :
  100 <= getFullYear tz now ->
  tz now true = tz (localJan0 tz now) false ->
  1 <= dayOfYearAt tz now <= 366
  /\ (dayOfYearAt tz now = 1 <-> getMonth tz now = 0 /\ getDate tz now = 1).
Proof.
  intros Hy Ho. rewrite (dayOfYearAt_no_shift tz now Hy Ho).
  pose proof (DayWithinYear_nonneg (LocalTime tz now)) as H0.
  pose proof (DayWithinYear_bound (LocalTime tz now)) as H1.
  pose proof (DaysInYear_bound (YearFromTime (LocalTime tz now))) as H2.
  split; [lia |].
  unfold getMonth, getDate, DateFromTime, MonthFromTime.
  set (d := DayWithinYear (LocalTime tz now)) in *.
  assert (Hl : 0 <= InLeapYear (LocalTime tz now) <= 1)
    by (unfold InLeapYear; destruct (_ =? 366); lia).
  set (leap := InLeapYear (LocalTime tz now)) in *. clearbody d leap.
  split.
  - intros H. assert (d = 0) by lia. subst d. cbn. auto.
  - intros [Hm Hd].
    destruct (Z.ltb_spec d 31); [cbn [monthStart Z.leb Z.compare] in Hd; lia |].
    repeat match type of Hm with
           | (if ?c then _ else _) = _ => destruct c; try discriminate Hm
           end.
Qed.

Lemma dayOfYear_counts_from_one_witness :
  1 <= dayOfYearAt (fixedZone 0) july1_noon <= 366.
Proof.
  apply (dayOfYear_counts_from_one (fixedZone 0) july1_noon).
  - vm_compute. discriminate.
  - reflexivity.
Defined.

(** X12.  One day later in the same local year, with the zone's offset
    unchanged since Jan 0, the day number is one more; so on a bank of two
    or more pairwise different questions the selector returns another
    question than the day before. *)
Theorem next_day_next_question (tz : TimeZone) (now : Z)
  (qs : list Question) :
  100 <= getFullYear tz now ->
  getFullYear tz (now + msPerDay) = getFullYear tz now ->
  tz now true = tz (localJan0 tz now) false ->
  tz (now + msPerDay) true = tz now true ->
  dayOfYearAt tz (now + msPerDay) = dayOfYearAt tz now + 1
  /\ (NoDup qs -> (2 <= length qs)%nat ->
      getDailyQuestion tz (now + msPerDay) (Some qs)
      <> getDailyQuestion tz now (Some qs)).
Proof.
  intros Hy Hsame Ho Ho'.
  assert (Hlt : LocalTime tz (now + msPerDay) = LocalTime tz now + msPerDay)
    by (unfold LocalTime; lia).
  assert (HJ : localJan0 tz (now + msPerDay) = localJan0 tz now).
  { unfold localJan0. unfold getFullYear in Hsame. rewrite Hsame.
    reflexivity. }
  assert (Hstep : dayOfYearAt tz (now + msPerDay) = dayOfYearAt tz now + 1).
  { rewrite (dayOfYearAt_no_shift tz now Hy Ho).
    rewrite (dayOfYearAt_no_shift tz (now + msPerDay));
      [| lia | rewrite HJ; congruence].
    unfold DayWithinYear. unfold getFullYear in Hsame. rewrite Hsame, Hlt.
    unfold Day, msPerDay. Z.div_mod_to_equations. lia. }
  split; [exact Hstep |].
  intros Hnd Hlen.
  assert (Hqs : qs <> []) by (destruct qs; [cbn in Hlen; lia | discriminate]).
  rewrite !(getDailyQuestion_index tz _ qs Hqs), Hstep.
  assert (Hd : 1 <= dayOfYearAt tz now).
  { rewrite (dayOfYearAt_no_shift tz now Hy Ho).
    pose proof (DayWithinYear_nonneg (LocalTime tz now)). lia. }
  set (d := dayOfYearAt tz now) in *. clearbody d.
  set (n := Z.of_nat (length qs)).
  assert (Hn : 2 <= n) by (subst n; lia).
  rewrite !Z.rem_mod_nonneg by lia.
  pose proof (Z.mod_pos_bound d n ltac:(lia)) as B1.
  pose proof (Z.mod_pos_bound (d + 1) n ltac:(lia)) as B2.
  unfold jsIndex.
  replace (d mod n <? 0) with false by (symmetry; apply Z.ltb_ge; lia).
  replace ((d + 1) mod n <? 0) with false by (symmetry; apply Z.ltb_ge; lia).
  intros E.
  assert (Hi : Z.to_nat ((d + 1) mod n) = Z.to_nat (d mod n)).
  { apply (proj1 (NoDup_nth_error qs) Hnd); [subst n; lia | exact E]. }
  assert (Hm : (d + 1) mod n = d mod n) by lia.
  assert (H1 : (d + 1 - d) mod n = 0)
    by (rewrite Zminus_mod, Hm, Z.sub_diag; apply Z.mod_0_l; lia).
  replace (d + 1 - d) with 1 in H1 by lia.
  rewrite Z.mod_1_l in H1 by lia. discriminate.
Qed.

Lemma next_day_next_question_witness :
  getDailyQuestion (fixedZone 0) (july1_noon + msPerDay) (Some sampleBank)
  <> getDailyQuestion (fixedZone 0) july1_noon (Some sampleBank).
Proof.
  apply (next_day_next_question (fixedZone 0) july1_noon sampleBank).
  - vm_compute. discriminate.
  - reflexivity.
  - reflexivity.
  - reflexivity.
  - repeat constructor; cbn; intuition discriminate.
  - cbn. lia.
Defined.

(** ** The countdown *)

Lemma MonthFromTime_range (t : Z) : 0 <= MonthFromTime t <= 11.
Proof.
  unfold MonthFromTime. cbv zeta.
  repeat match goal with
         | |- context [if ?c then _ else _] => destruct c
         end; lia.
Qed.

(** [new Date(y, m, d + k)] on the local fields of a time value is [k]
    days after its day. *)
Lemma MakeDay_of_fields (t k : Z) :
  MakeDay (YearFromTime t) (MonthFromTime t) (DateFromTime t + k)
  = Day t + k.
Proof.
  pose proof (MonthFromTime_range t) as Hm.
  unfold MakeDay. cbv zeta.
  rewrite Z.div_small, Z.mod_small, Z.add_0_r by lia.
  rewrite (Day_of_fields t). lia.
Qed.

Lemma newDate3_tomorrow (tz : TimeZone) (now : Z) :
  100 <= getFullYear tz now ->
  newDate3 tz (getFullYear tz now) (getMonth tz now) (getDate tz now + 1)
  = UTC tz (localTomorrow tz now).
Proof.
  intros Hy. unfold newDate3.
  replace ((0 <=? getFullYear tz now) && (getFullYear tz now <=? 99))
    with false
    by (symmetry; apply andb_false_iff; right; apply Z.leb_gt; lia).
  unfold getFullYear, getMonth, getDate, localTomorrow, MakeDate.
  rewrite MakeDay_of_fields, Z.add_0_r. reflexivity.
Qed.

Lemma msLeftToday_range (tz : TimeZone) (now : Z) :
  0 < msLeftToday tz now <= msPerDay.
Proof.
  unfold msLeftToday, TimeWithinDay, msPerDay.
  pose proof (Z.mod_pos_bound (LocalTime tz now) 86400000 ltac:(lia)). lia.
Qed.

Lemma String_length_append (a b : string) :
  String.length (a ++ b) = (String.length a + String.length b)%nat.
Proof.
  induction a as [| c a IH]; cbn [String.append String.length].
  - reflexivity.
  - rewrite IH. reflexivity.
Qed.

Lemma padStart2_length (n : Z) :
  0 <= n < 60 -> String.length (padStart2 (numberToString n)) = 2%nat.
Proof.
  intros H.
  assert (E : forall k : nat,
             (k < 60)%nat ->
             String.length (padStart2 (numberToString (Z.of_nat k))) = 2%nat).
  { intros k Hk. do 60 (destruct k as [| k]; [reflexivity |]). lia. }
  rewrite <- (Z2Nat.id n) by lia. apply E. lia.
Qed.

Lemma countdown_text_length (a b c : string) :
  String.length a = 2%nat -> String.length b = 2%nat ->
  String.length c = 2%nat ->
  String.length (a ++ ":" ++ b ++ ":" ++ c) = 8%nat.
Proof.
  intros Ha Hb Hc.
  rewrite String_length_append, Ha.
  change (":" ++ b ++ ":" ++ c)%string with (String ":" (b ++ String ":" c)).
  cbn [String.length]. rewrite String_length_append, Hb.
  cbn [String.length]. rewrite Hc. reflexivity.
Qed.

(** X13.  In a zone whose offset at the instant is the one at the coming
    local midnight, a tick of the countdown never takes the branch that
    stops the interval and reloads the page: the time left of the local
    day is more than zero and at most 24 hours, and the tick shows it as
    hours below 24, minutes and seconds below 60.  These add up to the
    whole seconds left, except at the very instant of local midnight,
    where 24 hours are left and the tick shows three zeros. *)
Theorem countdown_shows_the_time_left (tz : TimeZone) (now : Z) :
  100 <= getFullYear tz now ->
  tz now true = tz (localTomorrow tz now) false ->
  let left := msLeftToday tz now in
  0 < left <= msPerDay
  /\ countdownTick tz now <> TickReload
  /\ exists h m s,
       countdownTick tz now
       = TickShow (padStart2 (numberToString h) ++ ":"
                   ++ padStart2 (numberToString m) ++ ":"
                   ++ padStart2 (numberToString s))%string
       /\ 0 <= h < 24 /\ 0 <= m < 60 /\ 0 <= s < 60
       /\ (left < msPerDay -> h * 3600 + m * 60 + s = left / 1000)
       /\ (left = msPerDay -> h = 0 /\ m = 0 /\ s = 0).
Proof.
  intros Hy Ho left.
  pose proof (msLeftToday_range tz now) as Hr. fold left in Hr.
  assert (Hdiff : newDate3 tz (getFullYear tz now) (getMonth tz now)
                    (getDate tz now + 1) - now = left).
  { rewrite (newDate3_tomorrow tz now Hy). unfold UTC. rewrite <- Ho.
    subst left. unfold msLeftToday, localTomorrow, TimeWithinDay, Day,
      LocalTime, msPerDay.
    set (o := tz now true). clearbody o.
    Z.div_mod_to_equations. lia. }
  unfold countdownTick. cbv zeta. rewrite Hdiff.
  replace (left <=? 0) with false by (symmetry; apply Z.leb_gt; lia).
  split; [exact Hr |]. split; [discriminate |].
  change (1000 * 60 * 60) with 3600000.
  exists ((left / 3600000) mod 24), ((left / 1000 / 60) mod 60),
    ((left / 1000) mod 60).
  split; [reflexivity |].
  clearbody left. unfold msPerDay in *.
  repeat split; Z.div_mod_to_equations; lia.
Qed.

Lemma countdown_shows_the_time_left_witness :
  countdownTick newYork2024 july1_noon <> TickReload.
Proof.
  apply (countdown_shows_the_time_left newYork2024 july1_noon).
  - vm_compute. discriminate.
  - reflexivity.
Defined.

(** X14.  Whatever the zone and the instant, a text the countdown shows
    has eight characters: two for the hours, two for the minutes and two
    for the seconds, and two colons. *)
Theorem countdown_text_has_eight_characters (tz : TimeZone) (now : Z)
  (text : string) :
  countdownTick tz now = TickShow text -> String.length text = 8%nat.
Proof.
  unfold countdownTick. cbv zeta.
  set (diff := newDate3 tz (getFullYear tz now) (getMonth tz now)
                 (getDate tz now + 1) - now).
  clearbody diff.
  destruct (diff <=? 0); [discriminate |].
  set (h := (diff / (1000 * 60 * 60)) mod 24).
  set (m := (diff / 1000 / 60) mod 60).
  set (s := (diff / 1000) mod 60).
  assert (Hh : 0 <= h < 60)
    by (pose proof (Z.mod_pos_bound (diff / (1000 * 60 * 60)) 24 eq_refl);
        subst h; lia).
  assert (Hm : 0 <= m < 60) by (apply Z.mod_pos_bound; reflexivity).
  assert (Hs : 0 <= s < 60) by (apply Z.mod_pos_bound; reflexivity).
  clearbody h m s.
  intros H. injection H as <-.
  apply countdown_text_length; apply padStart2_length; assumption.
Qed.

Lemma countdown_text_has_eight_characters_witness :
  countdownTick newYork2024 july1_noon = TickShow "12:00:00"
  /\ String.length "12:00:00" = 8%nat.
Proof.
  assert (H : countdownTick newYork2024 july1_noon = TickShow "12:00:00")
    by (vm_compute; reflexivity).
  split; [exact H |].
  apply (countdown_text_has_eight_characters newYork2024 july1_noon).
  exact H.
Defined.

(** ** Runs of the page *)

(** What the submission handler may do to the statistics and what it
    leaves alone. *)
Lemma handleAnswerSubmission_frame (now : Z) (a : option string) (p : Page) :
  let p' := fst (handleAnswerSubmission now a p) in
  (userStats p' = userStats p
   \/ exists isCorrect, userStats p' = updateStats isCorrect (userStats p))
  /\ isAdmin p' = isAdmin p
  /\ questions p' = questions p
  /\ alerts p' = alerts p.
Proof.
  cbv zeta. destruct (gameFinished (gameState p)) eqn:Hf.
  - rewrite handleAnswerSubmission_finished by exact Hf. cbn [fst]. auto.
  - destruct (currentQuestion p) as [cq |] eqn:Hq.
    + destruct (handleAnswerSubmission_open now a p cq Hf Hq) as [ts ->].
      cbn [fst userStats isAdmin questions alerts].
      split; [right; eexists; reflexivity | auto].
    + rewrite handleAnswerSubmission_no_question by assumption.
      cbn [fst]. auto.
Qed.

Lemma optionsContainer_click_frame (now : Z) (o : option string) (p : Page) :
  let p' := fst (optionsContainer_click now o p) in
  (userStats p' = userStats p
   \/ exists isCorrect, userStats p' = updateStats isCorrect (userStats p))
  /\ isAdmin p' = isAdmin p.
Proof.
  cbv zeta. unfold optionsContainer_click.
  destruct o as [letter |]; [| cbn [fst]; auto].
  destruct (negb (gameFinished (gameState p))); [| cbn [fst]; auto].
  pose proof (handleAnswerSubmission_frame now (Some letter) p) as H.
  cbv zeta in H. tauto.
Qed.

Lemma document_keydown_frame (now : Z) (k : string) (p : Page) :
  let p' := fst (document_keydown now k p) in
  (userStats p' = userStats p
   \/ exists isCorrect, userStats p' = updateStats isCorrect (userStats p))
  /\ isAdmin p' = isAdmin p.
Proof.
  cbv zeta. unfold document_keydown.
  destruct (gameFinished (gameState p)); [cbn [fst]; auto |].
  destruct (existsb _ _); [| cbn [fst]; auto].
  pose proof (handleAnswerSubmission_frame now (Some (toUpperCase k)) p) as H.
  cbv zeta in H. tauto.
Qed.

(** A timeout leaves the page's statistics and the admin flag; storage
    keeps its statistics or takes those of the page. *)
Lemma fireTask_frame (k : Task) (w : World) :
  userStats (page (fireTask k w)) = userStats (page w)
  /\ isAdmin (page (fireTask k w)) = isAdmin (page w)
  /\ (oatdleStats (storage (fireTask k w)) = oatdleStats (storage w)
      \/ oatdleStats (storage (fireTask k w)) = Some (userStats (page w))).
Proof.
  destruct k as [index sel correct isC | isC]; cbn [fireTask].
  - cbn. auto.
  - cbn [page set_dom currentQuestion].
    destruct (currentQuestion (page w)); cbn; auto.
Qed.

Lemma fireNext_frame (w : World) :
  userStats (page (fireNext w)) = userStats (page w)
  /\ isAdmin (page (fireNext w)) = isAdmin (page w)
  /\ (oatdleStats (storage (fireNext w)) = oatdleStats (storage w)
      \/ oatdleStats (storage (fireNext w)) = Some (userStats (page w))).
Proof.
  unfold fireNext. destruct (timers (page w)) as [| t r]; [auto |].
  apply (fireTask_frame (task t)
           (mkWorld (set_timers r (page w)) (storage w))).
Qed.

Lemma init_frame (tz : TimeZone) (tLoad tSelect tRestore : Z)
  (adminParam : bool) (response : option (list Question)) (s : Storage) :
  let w := fst (init tz tLoad tSelect tRestore adminParam response s) in
  (userStats (page w) = storedStats s
   \/ exists isCorrect,
        userStats (page w) = updateStats isCorrect (storedStats s))
  /\ isAdmin (page w) = false
  /\ storage w = s.
Proof.
  cbv zeta.
  destruct (init_before_restore tz tLoad tSelect tRestore adminParam
              response s) as (p & -> & _ & Hu & _ & _ & _ & Ha).
  cbn [fst page storage]. unfold restoreGameState.
  destruct (gameFinished (gameState p)); [| cbn [fst]; auto].
  match goal with
  | |- context [handleAnswerSubmission ?t ?a ?q] =>
      pose proof (handleAnswerSubmission_frame t a q) as H
  end.
  cbv zeta in H. cbn [userStats isAdmin set_gameState] in H.
  rewrite Hu, Ha in H. tauto.
Qed.

Lemma updateStats_gamesPlayed (isCorrect : bool) (s : UserStats) :
  gamesPlayed (updateStats isCorrect s) = gamesPlayed s + 1.
Proof. apply updateStats_fields. Qed.

Lemma statsOk_page_update (w : World) (u : UserStats) (s : Storage) :
  statsOk w -> s = storage w ->
  (u = userStats (page w)
   \/ exists isCorrect, u = updateStats isCorrect (userStats (page w))) ->
  statsInvariant u
  /\ statsInvariant (storedStats s)
  /\ gamesPlayed (storedStats s) <= gamesPlayed u.
Proof.
  intros (Hp & Hs & Hle) -> [-> | [b ->]].
  - auto.
  - split; [apply updateStats_invariant, Hp |]. split; [exact Hs |].
    rewrite updateStats_gamesPlayed. lia.
Qed.

(** One event keeps the statistics sound and does not lower the stored
    number of games. *)
Lemma step_statsOk (tz : TimeZone) (html : AdminPanel) (a : App) (e : Event) :
  statsOk (world a) ->
  statsOk (world (step tz html a e))
  /\ gamesPlayed (storedStats (storage (world a)))
     <= gamesPlayed (storedStats (storage (world (step tz html a e)))).
Proof.
  intros Hok. pose proof Hok as (Hp & Hs & Hle).
  destruct e as [now o | now k | | tL tS tR ad resp | now | form | i | i
                 | v |]; cbn [step onPage world page storage].
  - split; [| lia].
    apply (statsOk_page_update (world a)); [exact Hok | reflexivity |].
    apply optionsContainer_click_frame.
  - split; [| lia].
    apply (statsOk_page_update (world a)); [exact Hok | reflexivity |].
    apply document_keydown_frame.
  - destruct (fireNext_frame (world a)) as (Hu & _ & Hst).
    unfold statsOk, storedStats in *. rewrite Hu.
    destruct Hst as [-> | ->].
    + repeat split; try assumption; try apply Hp; try apply Hs; lia.
    + repeat split; try assumption; try apply Hp; lia.
  - unfold reload.
    destruct (init_frame tz tL tS tR ad resp (storage (world a)))
      as (Hu & _ & Hst).
    unfold statsOk. rewrite Hst. split; [| lia].
    destruct Hu as [-> | [b ->]].
    + split; [exact Hs | split; [exact Hs | lia]].
    + split; [apply updateStats_invariant, Hs |]. split; [exact Hs |].
      rewrite updateStats_gamesPlayed. lia.
  - split; [| lia]. unfold shareButton_click.
    destruct (negb (gameFinished (gameState (page (world a)))));
      [exact Hok |].
    destruct (currentQuestion (page (world a))); exact Hok.
  - split; [| lia]. rewrite addQuestionButton_click_cases.
    destruct (formFilled form); exact Hok.
  - split; [| lia]. exact Hok.
  - split; [| lia]. unfold setDailyQuestionButton_click.
    destruct (find _ _); exact Hok.
  - split; [exact Hok | lia].
  - split; [| unfold adminLoginButton_click, showAdminDashboard;
              destruct (String.eqb _ _); cbn; lia].
    unfold adminLoginButton_click, showAdminDashboard.
    destruct (String.eqb _ _); exact Hok.
Qed.

Lemma run_statsOk (tz : TimeZone) (html : AdminPanel) (evs : list Event)
  (a : App) :
  statsOk (world a) ->
  statsOk (world (run tz html evs a))
  /\ gamesPlayed (storedStats (storage (world a)))
     <= gamesPlayed (storedStats (storage (world (run tz html evs a)))).
Proof.
  revert a. unfold run. induction evs as [| e evs IH]; intros a Hok;
    cbn [fold_left].
  - split; [exact Hok | lia].
  - destruct (step_statsOk tz html a e Hok) as [Hok' Hle].
    destruct (IH _ Hok') as [Hfin Hle']. split; [exact Hfin | lia].
Qed.

(** X15.  From storage whose statistics are sound, or absent, a first
    load followed by any run of clicks, key presses, timeouts, reloads,
    shares, admin actions and logins leaves sound statistics in memory and
    in storage (wins between 0 and gamesPlayed, currentStreak between 0
    and maxStreak), storage never ahead of memory, and a stored number of
    games that is not below the one at the start. *)
Theorem statistics_stay_sound_in_every_run (tz : TimeZone)
  (html : AdminPanel) (tLoad tSelect tRestore : Z) (adminParam : bool)
  (response : option (list Question)) (s : Storage) (evs : list Event) :
  statsInvariant (storedStats s) ->
  let a :=
    run tz html evs
        (start tz html tLoad tSelect tRestore adminParam response s) in
  statsOk (world a)
  /\ gamesPlayed (storedStats s)
     <= gamesPlayed (storedStats (storage (world a))).
Proof.
  intros Hs a. subst a.
  assert (Hstart : statsOk (world (start tz html tLoad tSelect tRestore
                                     adminParam response s))
                   /\ storage (world (start tz html tLoad tSelect tRestore
                                        adminParam response s)) = s).
  { unfold start. cbn [world].
    destruct (init_frame tz tLoad tSelect tRestore adminParam response s)
      as (Hu & _ & Hst).
    split; [| exact Hst]. unfold statsOk. rewrite Hst.
    destruct Hu as [-> | [b ->]].
    - split; [exact Hs | split; [exact Hs | lia]].
    - split; [apply updateStats_invariant, Hs |]. split; [exact Hs |].
      rewrite updateStats_gamesPlayed. lia. }
  destruct Hstart as [Hok Hst].
  destruct (run_statsOk tz html evs _ Hok) as [Hfin Hle].
  rewrite Hst in Hle. split; assumption.
Qed.

Lemma statistics_stay_sound_in_every_run_witness :
  statsOk
    (world (run newYork2024 (mkAdminPanel EmptyString true false "OATdle")
              [EvKeyDown (july1_noon + 1000) "b"; EvTimeout;
               EvReload (july1_noon + 60000) (july1_noon + 60000)
                        (july1_noon + 60000) false (Some sampleBank)]
              (start newYork2024
                     (mkAdminPanel EmptyString true false "OATdle")
                     july1_noon july1_noon july1_noon false
                     (Some sampleBank) emptyStorage))).
Proof.
  apply (statistics_stay_sound_in_every_run newYork2024
           (mkAdminPanel EmptyString true false "OATdle")
           july1_noon july1_noon july1_noon false (Some sampleBank)
           emptyStorage).
  unfold statsInvariant. cbn. lia.
Defined.


Lemma step_isAdmin (tz : TimeZone) (html : AdminPanel) (a : App) (e : Event) :
  isAdmin (page (world a)) = false ->
  adminPasswordValue (panel a) <> ADMIN_PASSWORD ->
  adminPasswordValue html <> ADMIN_PASSWORD ->
  (forall v, e = EvTypePassword v -> v <> ADMIN_PASSWORD) ->
  isAdmin (page (world (step tz html a e))) = false
  /\ adminPasswordValue (panel (step tz html a e)) <> ADMIN_PASSWORD.
Proof.
  intros Ha Hp Hh He.
  destruct e as [now o | now k | | tL tS tR ad resp | now | form | i | i
                 | v |]; cbn [step onPage world page panel].
  - split; [| exact Hp].
    rewrite (proj2 (optionsContainer_click_frame now o (page (world a)))).
    exact Ha.
  - split; [| exact Hp].
    rewrite (proj2 (document_keydown_frame now k (page (world a)))).
    exact Ha.
  - split; [| exact Hp].
    destruct (fireNext_frame (world a)) as (_ & -> & _). exact Ha.
  - split; [| exact Hh]. unfold reload.
    apply (init_frame tz tL tS tR ad resp (storage (world a))).
  - split; [| exact Hp]. unfold shareButton_click.
    destruct (negb (gameFinished (gameState (page (world a)))));
      [exact Ha |].
    destruct (currentQuestion (page (world a))); exact Ha.
  - split; [| exact Hp]. rewrite addQuestionButton_click_cases.
    destruct (formFilled form); exact Ha.
  - split; [exact Ha | exact Hp].
  - split; [| exact Hp]. unfold setDailyQuestionButton_click.
    destruct (find _ _); exact Ha.
  - split; [exact Ha |]. cbn [adminPasswordValue]. apply He. reflexivity.
  - unfold adminLoginButton_click.
    replace (String.eqb (adminPasswordValue (panel a)) ADMIN_PASSWORD)
      with false by (symmetry; apply String.eqb_neq, Hp).
    cbn [world page panel isAdmin alert adminPasswordValue].
    split; [exact Ha | discriminate].
Qed.

(** X16.  The admin flag is set by the password and by nothing else: on
    a page where it is not set, in a run in which the text oat is never in
    the password input, the flag stays unset, whatever else happens;
    typing oat and clicking the login button sets it and shows the
    dashboard; clicking with any other text shows a message, empties the
    input and leaves the flag as it was; and a reload unsets it. *)
Theorem admin_flag_needs_the_password (tz : TimeZone) (html : AdminPanel)
  (a : App) :
  (forall evs,
      isAdmin (page (world a)) = false ->
      adminPasswordValue (panel a) <> ADMIN_PASSWORD ->
      adminPasswordValue html <> ADMIN_PASSWORD ->
      (forall v, In (EvTypePassword v) evs -> v <> ADMIN_PASSWORD) ->
      isAdmin (page (world (run tz html evs a))) = false)
  /\ (let a' := run tz html [EvTypePassword ADMIN_PASSWORD; EvLogin] a in
      isAdmin (page (world a')) = true
      /\ adminDashboardDisplay (panel a') = true
      /\ adminLoginDisplay (panel a') = false
      /\ alerts (page (world a')) = alerts (page (world a)))
  /\ (forall v,
         v <> ADMIN_PASSWORD ->
         let a' := run tz html [EvTypePassword v; EvLogin] a in
         isAdmin (page (world a')) = isAdmin (page (world a))
         /\ adminPasswordValue (panel a') = EmptyString
         /\ alerts (page (world a'))
            = alerts (page (world a)) ++ ["Incorrect password"%string])
  /\ (forall tLoad tSelect tRestore adminParam response,
         isAdmin (page (world (step tz html a
                                  (EvReload tLoad tSelect tRestore adminParam
                                            response)))) = false).
Proof.
  split; [| split; [| split]].
  - intros evs. revert a. unfold run.
    induction evs as [| e evs IH]; intros a Ha Hp Hh He; cbn [fold_left].
    + exact Ha.
    + destruct (step_isAdmin tz html a e Ha Hp Hh) as [Ha' Hp'].
      { intros v ->. apply He. left. reflexivity. }
      apply IH; [exact Ha' | exact Hp' | exact Hh |].
      intros v Hv. apply He. right. exact Hv.
  - cbn. auto.
  - intros v Hv. cbn [run fold_left step world panel page].
    unfold adminLoginButton_click. cbn [adminPasswordValue].
    replace (String.eqb v ADMIN_PASSWORD) with false
      by (symmetry; apply String.eqb_neq, Hv).
    cbn. auto.
  - intros tLoad tSelect tRestore adminParam response.
    cbn [step world]. unfold reload.
    apply (init_frame tz tLoad tSelect tRestore adminParam response
             (storage (world a))).
Qed.

Lemma admin_flag_needs_the_password_witness :
  isAdmin
    (page (world
             (run newYork2024 (mkAdminPanel EmptyString true false "OATdle")
                  [EvTypePassword "admin"; EvLogin;
                   EvAddQuestion formWithAnswerE; EvSetDailyQuestion (Some 1)]
                  (start newYork2024
                         (mkAdminPanel EmptyString true false "OATdle")
                         july1_noon july1_noon july1_noon true
                         (Some sampleBank) emptyStorage))))
  = false.
Proof.
  refine (proj1 (admin_flag_needs_the_password newYork2024
                   (mkAdminPanel EmptyString true false "OATdle")
                   (start newYork2024
                          (mkAdminPanel EmptyString true false "OATdle")
                          july1_noon july1_noon july1_noon true
                          (Some sampleBank) emptyStorage))
                [EvTypePassword "admin"; EvLogin;
                 EvAddQuestion formWithAnswerE; EvSetDailyQuestion (Some 1)]
                _ _ _ _).
  - vm_compute. reflexivity.
  - vm_compute. discriminate.
  - vm_compute. discriminate.
  - intros v [H | [H | [H | [H | []]]]]; try discriminate H.
    injection H as <-. discriminate.
Defined.

(** ** The practice page *)

Lemma practice_fold_setTimeout_frame (now : Z) (K : Practice.Page -> nat -> Practice.Task)
  (l : list nat) (p : Practice.Page) :
  exists ts,
    fold_left (fun p index =>
                 Practice.setTimeout now (K p index) (Z.of_nat index * 300) p)
              l p
    = Practice.set_timers ts p.
Proof.
  revert p. induction l as [| i l IH]; intros p; cbn [fold_left].
  - exists (Practice.timers p). destruct p; reflexivity.
  - destruct (IH (Practice.setTimeout now (K p i) (Z.of_nat i * 300) p))
      as [ts Hts].
    exists ts. rewrite Hts. reflexivity.
Qed.

(** The practice handler writes the finished flag and the timeouts. *)
Lemma practice_handler_cases (now : Z) (a : option string)
  (p : Practice.Page) :
  (Practice.gameFinished p = true /\
   Practice.handleAnswerSubmission now a p = (p, Returned))
  \/ (Practice.gameFinished p = false /\ Practice.currentQuestion p = None /\
      Practice.handleAnswerSubmission now a p
      = (Practice.set_gameFinished true p, ThrewTypeError))
  \/ (Practice.gameFinished p = false /\
      exists cq ts,
        Practice.currentQuestion p = Some cq
        /\ Practice.handleAnswerSubmission now a p
           = (Practice.set_timers ts (Practice.set_gameFinished true p),
              Returned)).
Proof.
  unfold Practice.handleAnswerSubmission.
  destruct (Practice.gameFinished p) eqn:Hf; [left; auto | right].
  cbn [Practice.currentQuestion Practice.set_gameFinished].
  destruct (Practice.currentQuestion p) as [cq |] eqn:Hq; [right | left; auto].
  split; [reflexivity |]. exists cq.
  match goal with
  | |- context [fold_left ?f ?l ?q] =>
      destruct (practice_fold_setTimeout_frame now
                  (fun p index =>
                     Practice.RevealOption (Practice.filling p) index a
                       (answer cq) (strictEq a (answer cq)))
                  l q) as [ts Hts]
  end.
  rewrite Hts. eexists. split; [reflexivity |].
  unfold Practice.setTimeout. reflexivity.
Qed.

Lemma practice_handler_frame (now : Z) (a : option string)
  (p : Practice.Page) :
  let p' := fst (Practice.handleAnswerSubmission now a p) in
  Practice.questions p' = Practice.questions p
  /\ Practice.currentQuestionIndex p' = Practice.currentQuestionIndex p
  /\ Practice.currentQuestion p' = Practice.currentQuestion p
  /\ Practice.dom p' = Practice.dom p
  /\ Practice.gameFinished p' = true.
Proof.
  cbv zeta.
  destruct (practice_handler_cases now a p)
    as [[Hf ->] | [[Hf [Hq ->]] | [Hf (cq & ts & Hq & ->)]]];
    cbn [fst]; auto.
  all: repeat split.
Qed.

Lemma practice_submission_frame (e : Practice.Event) (p : Practice.Page) :
  isSubmission e = true ->
  Practice.questions (Practice.step p e) = Practice.questions p
  /\ Practice.currentQuestionIndex (Practice.step p e)
     = Practice.currentQuestionIndex p
  /\ Practice.currentQuestion (Practice.step p e) = Practice.currentQuestion p
  /\ (Practice.gameFinished p = true -> Practice.step p e = p).
Proof.
  destruct e as [now o | now k | | |]; try discriminate; intros _;
    cbn [Practice.step].
  - unfold Practice.optionsContainer_click.
    destruct o as [letter |]; [| cbn [fst]; auto].
    destruct (Practice.gameFinished p) eqn:Hf; cbn [negb fst]; [auto |].
    pose proof (practice_handler_frame now (Some letter) p) as H.
    cbv zeta in H. repeat split; try apply H. discriminate.
  - unfold Practice.document_keydown.
    destruct (Practice.gameFinished p) eqn:Hf; cbn [fst]; [auto |].
    destruct (existsb _ _); cbn [fst]; [| repeat split; discriminate].
    pose proof (practice_handler_frame now (Some (toUpperCase k)) p) as H.
    cbv zeta in H. repeat split; try apply H. discriminate.
Qed.

Lemma practice_fireTask_frame (k : Practice.Task) (p : Practice.Page) :
  Practice.questions (Practice.fireTask k p) = Practice.questions p
  /\ Practice.currentQuestionIndex (Practice.fireTask k p)
     = Practice.currentQuestionIndex p
  /\ Practice.currentQuestion (Practice.fireTask k p)
     = Practice.currentQuestion p
  /\ Practice.gameFinished (Practice.fireTask k p) = Practice.gameFinished p.
Proof.
  destruct k as [f index sel correct isC | isC]; cbn [Practice.fireTask].
  - destruct (Nat.eqb f (Practice.filling p)); auto.
  - destruct p as [qs i [cq |] g d fl ts]; cbn; auto.
Qed.

Lemma practice_step_ok (p : Practice.Page) (e : Practice.Event) :
  practiceOk p ->
  practiceOk (Practice.step p e)
  /\ Practice.questions (Practice.step p e) = Practice.questions p.
Proof.
  intros (H0 & Hb & Hc). unfold practiceOk.
  destruct e as [now o | now k | | |].
  - destruct (practice_submission_frame (Practice.EvClick now o) p eq_refl)
      as (-> & -> & -> & _). auto.
  - destruct (practice_submission_frame (Practice.EvKeyDown now k) p eq_refl)
      as (-> & -> & -> & _). auto.
  - cbn [Practice.step]. destruct (Practice.timers p) as [| t r]; [auto |].
    destruct (practice_fireTask_frame (Practice.task t)
                (Practice.set_timers r p)) as (-> & -> & -> & _).
    cbn. auto.
  - cbn [Practice.step]. unfold Practice.prevQuestionButton_click.
    destruct (Z.gtb_spec (Practice.currentQuestionIndex p) 0) as [Hgt |];
      [| auto].
    cbn [Practice.set_currentQuestionIndex Practice.questions
         Practice.currentQuestionIndex].
    destruct (jsIndex_in_range (Practice.questions p)
                (Practice.currentQuestionIndex p - 1) ltac:(lia))
      as (q & Hq & _).
    rewrite Hq. cbn. repeat split; try lia. symmetry. exact Hq.
  - cbn [Practice.step]. unfold Practice.nextQuestionButton_click.
    destruct (Z.ltb_spec (Practice.currentQuestionIndex p)
                (Z.of_nat (length (Practice.questions p)) - 1)) as [Hlt |];
      [| auto].
    cbn [Practice.set_currentQuestionIndex Practice.questions
         Practice.currentQuestionIndex].
    destruct (jsIndex_in_range (Practice.questions p)
                (Practice.currentQuestionIndex p + 1) ltac:(lia))
      as (q & Hq & _).
    rewrite Hq. cbn. repeat split; try lia. symmetry. exact Hq.
Qed.

Lemma practice_init_ok (response : option (list Question)) :
  practiceOk (Practice.init response)
  /\ Practice.questions (Practice.init response) = bankOf response.
Proof.
  unfold Practice.init, practiceOk.
  destruct response as [[| q qs] |]; cbn; repeat split; auto; lia.
Qed.

(** X17.  After the first load and any run of clicks, key presses,
    timeouts and presses of the previous and next buttons, the bank is
    the one fetched, the index is inside it (0 on an empty bank) and the
    current question is the one at the index. *)
Theorem practice_page_stays_in_step (response : option (list Question))
  (evs : list Practice.Event) :
  let p := Practice.run evs (Practice.init response) in
  practiceOk p /\ Practice.questions p = bankOf response.
Proof.
  cbv zeta. destruct (practice_init_ok response) as [Hok Hqs].
  revert Hok Hqs. generalize (Practice.init response). unfold Practice.run.
  induction evs as [| e evs IH]; intros p Hok Hqs; cbn [fold_left].
  - auto.
  - destruct (practice_step_ok p e Hok) as [Hok' Hqs'].
    apply IH; [exact Hok' | congruence].
Qed.

(** What a press of the next button does below the last question. *)
Lemma practice_next_moves (p : Practice.Page) :
  practiceOk p ->
  Practice.currentQuestionIndex p
  < Z.of_nat (length (Practice.questions p)) - 1 ->
  exists q,
    jsIndex (Practice.questions p) (Practice.currentQuestionIndex p + 1)
    = Some q
    /\ Practice.nextQuestionButton_click p
       = Practice.mkPage (Practice.questions p)
           (Practice.currentQuestionIndex p + 1) (Some q) false
           (Practice.mkDom (subject q) (difficulty q) (question q)
              (freshOptions q) EmptyString
              (Practice.explanationText (Practice.dom p)) false)
           (S (Practice.filling p)) (Practice.timers p).
Proof.
  intros (H0 & _ & _) Hlt. unfold Practice.nextQuestionButton_click.
  replace (Practice.currentQuestionIndex p
           <? Z.of_nat (length (Practice.questions p)) - 1) with true
    by (symmetry; apply Z.ltb_lt; exact Hlt).
  cbn [Practice.set_currentQuestionIndex Practice.questions
       Practice.currentQuestionIndex].
  destruct (jsIndex_in_range (Practice.questions p)
              (Practice.currentQuestionIndex p + 1) ltac:(lia))
    as (q & Hq & _).
  exists q. split; [exact Hq |]. rewrite Hq. reflexivity.
Qed.

(** What a press of the previous button does above the first question. *)
Lemma practice_prev_moves (p : Practice.Page) :
  practiceOk p ->
  0 < Practice.currentQuestionIndex p ->
  exists q,
    jsIndex (Practice.questions p) (Practice.currentQuestionIndex p - 1)
    = Some q
    /\ Practice.prevQuestionButton_click p
       = Practice.mkPage (Practice.questions p)
           (Practice.currentQuestionIndex p - 1) (Some q) false
           (Practice.mkDom (subject q) (difficulty q) (question q)
              (freshOptions q) EmptyString
              (Practice.explanationText (Practice.dom p)) false)
           (S (Practice.filling p)) (Practice.timers p).
Proof.
  intros (H0 & Hb & _) Hgt. unfold Practice.prevQuestionButton_click.
  replace (Practice.currentQuestionIndex p >? 0) with true
    by (symmetry; apply Z.gtb_lt; exact Hgt).
  cbn [Practice.set_currentQuestionIndex Practice.questions
       Practice.currentQuestionIndex].
  destruct (jsIndex_in_range (Practice.questions p)
              (Practice.currentQuestionIndex p - 1) ltac:(lia))
    as (q & Hq & _).
  exists q. split; [exact Hq |]. rewrite Hq. reflexivity.
Qed.

(** X18.  On a practice page in step: next and then previous, from below
    the last question, come back to the same index and the same question,
    with the game open, the feedback empty and the explanation hidden,
    also when the question had been answered; so do previous and then
    next from above the first question.  Next on the last question (or on
    an empty bank) and previous on the first change nothing. *)
Theorem practice_navigation_round_trip (p : Practice.Page) :
  practiceOk p ->
  (Practice.currentQuestionIndex p
   < Z.of_nat (length (Practice.questions p)) - 1 ->
   let p' := Practice.prevQuestionButton_click
               (Practice.nextQuestionButton_click p) in
   Practice.currentQuestionIndex p' = Practice.currentQuestionIndex p
   /\ Practice.currentQuestion p' = Practice.currentQuestion p
   /\ Practice.gameFinished p' = false
   /\ Practice.feedbackText (Practice.dom p') = EmptyString
   /\ Practice.explanationDisplay (Practice.dom p') = false)
  /\ (0 < Practice.currentQuestionIndex p ->
      let p' := Practice.nextQuestionButton_click
                  (Practice.prevQuestionButton_click p) in
      Practice.currentQuestionIndex p' = Practice.currentQuestionIndex p
      /\ Practice.currentQuestion p' = Practice.currentQuestion p
      /\ Practice.gameFinished p' = false
      /\ Practice.feedbackText (Practice.dom p') = EmptyString
      /\ Practice.explanationDisplay (Practice.dom p') = false)
  /\ (Z.of_nat (length (Practice.questions p)) - 1
      <= Practice.currentQuestionIndex p ->
      Practice.nextQuestionButton_click p = p)
  /\ (Practice.currentQuestionIndex p = 0 ->
      Practice.prevQuestionButton_click p = p).
Proof.
  intros Hok. pose proof Hok as (H0 & Hb & Hc).
  split; [| split; [| split]].
  - intros Hlt p'. subst p'.
    destruct (practice_next_moves p Hok Hlt) as (q & Hq & Hn).
    assert (Hok' : practiceOk (Practice.nextQuestionButton_click p))
      by apply (practice_step_ok p Practice.EvNext Hok).
    destruct (practice_prev_moves _ Hok') as (q' & Hq' & ->);
      rewrite Hn in *; cbn [Practice.currentQuestionIndex
                            Practice.questions] in *; [lia |].
    cbn. replace (Practice.currentQuestionIndex p + 1 - 1)
      with (Practice.currentQuestionIndex p) in * by lia.
    repeat split; try lia. congruence.
  - intros Hgt p'. subst p'.
    destruct (practice_prev_moves p Hok Hgt) as (q & Hq & Hn).
    assert (Hok' : practiceOk (Practice.prevQuestionButton_click p))
      by apply (practice_step_ok p Practice.EvPrev Hok).
    destruct (practice_next_moves _ Hok') as (q' & Hq' & ->);
      rewrite Hn in *; cbn [Practice.currentQuestionIndex
                            Practice.questions] in *; [lia |].
    cbn. replace (Practice.currentQuestionIndex p - 1 + 1)
      with (Practice.currentQuestionIndex p) in * by lia.
    repeat split; try lia. congruence.
  - intros Hge. unfold Practice.nextQuestionButton_click.
    replace (Practice.currentQuestionIndex p
             <? Z.of_nat (length (Practice.questions p)) - 1) with false
      by (symmetry; apply Z.ltb_ge; exact Hge).
    reflexivity.
  - intros Hz. unfold Practice.prevQuestionButton_click. rewrite Hz.
    reflexivity.
Qed.

Lemma practice_navigation_round_trip_witness :
  Practice.currentQuestion
    (Practice.prevQuestionButton_click
       (Practice.nextQuestionButton_click
          (Practice.init (Some sampleBank))))
  = Some sampleQuestion.
Proof.
  apply (practice_navigation_round_trip (Practice.init (Some sampleBank))).
  - apply practice_init_ok.
  - cbn. lia.
Defined.

(** X19.  On a practice page in step with a bank that is not empty, [n]
    presses of the next button move the index forward by [n] but not past
    the last question, and [n] presses of the previous button move it
    back by [n] but not before the first. *)
Theorem practice_navigation_stops_at_the_ends (p : Practice.Page) (n : nat) :
  practiceOk p ->
  Practice.questions p <> [] ->
  Practice.currentQuestionIndex
    (Practice.run (repeat Practice.EvNext n) p)
  = Z.min (Practice.currentQuestionIndex p + Z.of_nat n)
          (Z.of_nat (length (Practice.questions p)) - 1)
  /\ Practice.currentQuestionIndex
       (Practice.run (repeat Practice.EvPrev n) p)
     = Z.max (Practice.currentQuestionIndex p - Z.of_nat n) 0.
Proof.
  intros Hok Hne.
  assert (Hlen : 0 < Z.of_nat (length (Practice.questions p)))
    by (destruct (Practice.questions p); [congruence | cbn [length]; lia]).
  split.
  - revert p Hok Hne Hlen. unfold Practice.run.
    induction n as [| n IH]; intros p Hok Hne Hlen;
      pose proof Hok as (H0 & Hb & _); cbn [repeat fold_left].
    + lia.
    + destruct (practice_step_ok p Practice.EvNext Hok) as [Hok' Hqs].
      rewrite IH; [| exact Hok' | congruence | rewrite Hqs; exact Hlen].
      rewrite Hqs. cbn [Practice.step].
      destruct (Z.lt_ge_cases (Practice.currentQuestionIndex p)
                  (Z.of_nat (length (Practice.questions p)) - 1))
        as [Hlt | Hge].
      * destruct (practice_next_moves p Hok Hlt) as (q & _ & ->).
        cbn [Practice.currentQuestionIndex]. lia.
      * unfold Practice.nextQuestionButton_click.
        replace (Practice.currentQuestionIndex p
                 <? Z.of_nat (length (Practice.questions p)) - 1) with false
          by (symmetry; apply Z.ltb_ge; exact Hge).
        lia.
  - revert p Hok Hne Hlen. unfold Practice.run.
    induction n as [| n IH]; intros p Hok Hne Hlen;
      pose proof Hok as (H0 & Hb & _); cbn [repeat fold_left].
    + lia.
    + destruct (practice_step_ok p Practice.EvPrev Hok) as [Hok' Hqs].
      rewrite IH; [| exact Hok' | congruence | rewrite Hqs; exact Hlen].
      cbn [Practice.step].
      destruct (Z.lt_ge_cases 0 (Practice.currentQuestionIndex p))
        as [Hgt | Hle].
      * destruct (practice_prev_moves p Hok Hgt) as (q & _ & ->).
        cbn [Practice.currentQuestionIndex]. lia.
      * unfold Practice.prevQuestionButton_click.
        replace (Practice.currentQuestionIndex p >? 0) with false
          by (symmetry; rewrite Z.gtb_ltb; apply Z.ltb_ge; lia).
        lia.
Qed.

Lemma practice_navigation_stops_at_the_ends_witness :
  Practice.currentQuestionIndex
    (Practice.run (repeat Practice.EvNext 5)
                  (Practice.init (Some sampleBank)))
  = Z.min (0 + Z.of_nat 5) (Z.of_nat (length sampleBank) - 1).
Proof.
  apply (practice_navigation_stops_at_the_ends
           (Practice.init (Some sampleBank)) 5).
  - apply practice_init_ok.
  - discriminate.
Defined.

Lemma practice_submissions_ignored (evs : list Practice.Event)
  (p : Practice.Page) :
  forallb isSubmission evs = true ->
  Practice.gameFinished p = true ->
  Practice.run evs p = p.
Proof.
  unfold Practice.run. induction evs as [| e evs IH]; intros He Hf;
    cbn [fold_left].
  - reflexivity.
  - cbn [forallb] in He. apply andb_true_iff in He. destruct He as [He Hes].
    destruct (practice_submission_frame e p He) as (_ & _ & _ & Hsame).
    rewrite (Hsame Hf). apply IH; assumption.
Qed.

(** X20.  On the practice page a question takes one answer per visit:
    after a call of the submission handler, clicks in the options and key
    presses change nothing, however many; a press of next below the last
    question, or of previous above the first, opens the game again. *)
Theorem practice_one_answer_per_visit (now : Z) (a : option string)
  (p : Practice.Page) :
  let p1 := fst (Practice.handleAnswerSubmission now a p) in
  (forall evs, forallb isSubmission evs = true -> Practice.run evs p1 = p1)
  /\ (practiceOk p ->
      Practice.currentQuestionIndex p
      < Z.of_nat (length (Practice.questions p)) - 1 ->
      Practice.gameFinished (Practice.nextQuestionButton_click p1) = false)
  /\ (practiceOk p ->
      0 < Practice.currentQuestionIndex p ->
      Practice.gameFinished (Practice.prevQuestionButton_click p1) = false).
Proof.
  cbv zeta.
  pose proof (practice_handler_frame now a p) as H. cbv zeta in H.
  destruct H as (Hqs & Hi & Hc & _ & Hf).
  set (p1 := fst (Practice.handleAnswerSubmission now a p)) in *.
  assert (Hok1 : practiceOk p -> practiceOk p1).
  { unfold practiceOk. rewrite Hqs, Hi, Hc. auto. }
  split; [| split].
  - intros evs He. apply practice_submissions_ignored; assumption.
  - intros Hok Hlt.
    destruct (practice_next_moves p1 (Hok1 Hok)) as (q & _ & ->);
      [rewrite Hqs, Hi; exact Hlt | reflexivity].
  - intros Hok Hgt.
    destruct (practice_prev_moves p1 (Hok1 Hok)) as (q & _ & ->);
      [rewrite Hi; exact Hgt | reflexivity].
Qed.

Lemma practice_one_answer_per_visit_witness :
  Practice.gameFinished
    (Practice.nextQuestionButton_click
       (fst (Practice.handleAnswerSubmission july1_noon (Some "B"%string)
               (Practice.init (Some sampleBank)))))
  = false.
Proof.
  apply (practice_one_answer_per_visit july1_noon (Some "B"%string)
           (Practice.init (Some sampleBank))).
  - apply practice_init_ok.
  - cbn. lia.
Defined.

(** X21.  On the practice page with an empty bank (or a failed fetch) no
    question is current; the first press of a key A to D, in either case,
    throws a TypeError after marking the game finished, and from then on
    no click, key press, timeout or navigation button changes the page. *)
Theorem practice_empty_bank_freezes (response : option (list Question))
  (now : Z) (k : string) (evs : list Practice.Event) :
  bankOf response = [] ->
  validAnswerLetter (toUpperCase k) = true ->
  let p0 := Practice.init response in
  let r := Practice.document_keydown now k p0 in
  Practice.currentQuestion p0 = None
  /\ Practice.gameFinished p0 = false
  /\ snd r = ThrewTypeError
  /\ Practice.gameFinished (fst r) = true
  /\ Practice.run evs (fst r) = fst r.
Proof.
  intros Hb Hk p0 r.
  assert (Hp0 : exists d, p0 = Practice.mkPage [] 0 None false d 0 []).
  { subst p0. unfold Practice.init.
    destruct response as [data |]; cbn [bankOf] in Hb.
    - subst data. eexists. reflexivity.
    - eexists. reflexivity. }
  destruct Hp0 as [d Hp0].
  assert (Hr : r = (Practice.mkPage [] 0 None true d 0 [], ThrewTypeError)).
  { subst r. rewrite Hp0. unfold Practice.document_keydown.
    cbn [Practice.gameFinished]. unfold validAnswerLetter in Hk.
    rewrite Hk. reflexivity. }
  rewrite Hr, Hp0. cbn [fst snd Practice.currentQuestion Practice.gameFinished].
  repeat split.
  unfold Practice.run. induction evs as [| e evs IH]; cbn [fold_left].
  - reflexivity.
  - replace (Practice.step (Practice.mkPage [] 0 None true d 0 []) e)
      with (Practice.mkPage [] 0 None true d 0 []); [exact IH |].
    destruct e as [t o | t key | | |]; try reflexivity.
    destruct o; reflexivity.
Qed.

Lemma practice_empty_bank_freezes_witness :
  snd (Practice.document_keydown july1_noon "c" (Practice.init None))
  = ThrewTypeError.
Proof.
  apply (practice_empty_bank_freezes None july1_noon "c" []); reflexivity.
Defined.

Lemma practice_insertTimer_last (t : Practice.Timer)
  (ts : list Practice.Timer) :
  (forall u, In u ts -> Practice.due u <= Practice.due t) ->
  Practice.insertTimer t ts = ts ++ [t].
Proof.
  induction ts as [| u ts IH]; intros H; cbn [Practice.insertTimer app].
  - reflexivity.
  - replace (Practice.due t <? Practice.due u) with false
      by (symmetry; apply Z.ltb_ge, H; left; reflexivity).
    rewrite IH by (intros v Hv; apply H; right; exact Hv). reflexivity.
Qed.

(** The reveal timeouts of the practice page, in the order of their
    indices, each holding the filling of the container it was made in. *)
Lemma practice_schedule (now : Z) (a : option string) (correct : string)
  (isC : bool) (k i : nat) (p : Practice.Page) :
  (forall u, In u (Practice.timers p) ->
             Practice.due u <= now + Z.of_nat i * 300) ->
  fold_left
    (fun p index =>
       Practice.setTimeout now
         (Practice.RevealOption (Practice.filling p) index a correct isC)
         (Z.of_nat index * 300) p)
    (seq i k) p
  = Practice.set_timers
      (Practice.timers p
       ++ map (fun index =>
                 Practice.mkTimer (now + Z.of_nat index * 300)
                   (Practice.RevealOption (Practice.filling p) index a
                                          correct isC))
              (seq i k))
      p.
Proof.
  revert i p. induction k as [| k IH]; intros i p H; cbn [seq fold_left map].
  - rewrite app_nil_r. destruct p; reflexivity.
  - rewrite IH.
    + unfold Practice.setTimeout.
      cbn [Practice.timers Practice.set_timers Practice.filling].
      rewrite practice_insertTimer_last
        by (intros u Hu; cbn [Practice.due]; apply H, Hu).
      rewrite <- app_assoc. reflexivity.
    + intros u Hu. unfold Practice.setTimeout in Hu.
      cbn [Practice.timers Practice.set_timers] in Hu.
      rewrite practice_insertTimer_last in Hu
        by (intros v Hv; cbn [Practice.due]; apply H, Hv).
      apply in_app_or in Hu. destruct Hu as [Hu | [<- | []]].
      * pose proof (H u Hu). lia.
      * cbn [Practice.due]. lia.
Qed.

Lemma practice_fireTask_set_timers (k : Practice.Task)
  (r : list Practice.Timer) (q : Practice.Page) :
  Practice.fireTask k (Practice.set_timers r q)
  = Practice.set_timers r (Practice.fireTask k q).
Proof.
  destruct q as [qs i c g d fl tq].
  destruct k as [f index sel correct isC | isC]; cbn.
  - destruct (Nat.eqb f fl); reflexivity.
  - destruct c; reflexivity.
Qed.

(** Letting as many timeouts fire as are pending fires them all in
    order. *)
Lemma practice_run_timeouts (ts : list Practice.Timer) (p : Practice.Page) :
  Practice.timers p = ts ->
  Practice.run (repeat Practice.EvTimeout (length ts)) p
  = fold_left (fun p t => Practice.fireTask (Practice.task t) p) ts
              (Practice.set_timers [] p).
Proof.
  revert p. unfold Practice.run.
  induction ts as [| t ts IH]; intros p Ht; cbn [length repeat fold_left].
  - destruct p; cbn in *; subst; reflexivity.
  - cbn [Practice.step]. rewrite Ht.
    rewrite IH
      by (rewrite practice_fireTask_set_timers; reflexivity).
    rewrite !practice_fireTask_set_timers. reflexivity.
Qed.

(** A reveal made for an earlier filling of the container shows
    nothing. *)
Lemma practice_stale_reveals (f : nat) (a : option string) (correct : string)
  (isC : bool) (now : Z) (l : list nat) (p : Practice.Page) :
  f <> Practice.filling p ->
  fold_left (fun p t => Practice.fireTask (Practice.task t) p)
            (map (fun index =>
                    Practice.mkTimer (now + Z.of_nat index * 300)
                      (Practice.RevealOption f index a correct isC))
                 l)
            p
  = p.
Proof.
  intros Hf. induction l as [| i l IH]; cbn [map fold_left].
  - reflexivity.
  - cbn [Practice.task Practice.fireTask].
    replace (Nat.eqb f (Practice.filling p)) with false
      by (symmetry; apply Nat.eqb_neq, Hf).
    exact IH.
Qed.

(** X22.  On the practice page, an answer by a click and a press of next
    before the timeouts of the answer have fired: once they fire, the
    page shows the next question with its options unmarked and the game
    open, together with the verdict on the answer to the question left
    behind and the explanation of the question now on display. *)
Theorem practice_feedback_outlives_navigation (now : Z) (letter : string)
  (p : Practice.Page) (cq : Question) :
  practiceOk p ->
  Practice.gameFinished p = false ->
  Practice.timers p = [] ->
  Practice.currentQuestion p = Some cq ->
  Practice.currentQuestionIndex p
  < Z.of_nat (length (Practice.questions p)) - 1 ->
  let n := length (Practice.optionsContainer (Practice.dom p)) in
  let p' :=
    Practice.run
      (Practice.EvClick now (Some letter) :: Practice.EvNext
       :: repeat Practice.EvTimeout (S n))
      p in
  exists nq,
    jsIndex (Practice.questions p) (Practice.currentQuestionIndex p + 1)
    = Some nq
    /\ Practice.currentQuestion p' = Some nq
    /\ Practice.gameFinished p' = false
    /\ Practice.optionsContainer (Practice.dom p') = freshOptions nq
    /\ Practice.feedbackText (Practice.dom p')
       = (if String.eqb letter (answer cq) then "Correct!"
          else "Incorrect!")%string
    /\ Practice.explanationText (Practice.dom p') = explanation nq
    /\ Practice.explanationDisplay (Practice.dom p') = true
    /\ Practice.timers p' = [].
Proof.
  intros Hok Hf Ht Hq Hlt n p'.
  set (ts := map (fun index =>
                    Practice.mkTimer (now + Z.of_nat index * 300)
                      (Practice.RevealOption (Practice.filling p) index
                         (Some letter) (answer cq)
                         (String.eqb letter (answer cq))))
                 (seq 0 n)
             ++ [Practice.mkTimer (now + Z.of_nat n * 300)
                   (Practice.ShowFeedback (String.eqb letter (answer cq)))]).
  assert (H1 : Practice.step p (Practice.EvClick now (Some letter))
               = Practice.set_timers ts (Practice.set_gameFinished true p)).
  { cbn [Practice.step]. unfold Practice.optionsContainer_click.
    rewrite Hf. cbn [negb]. unfold Practice.handleAnswerSubmission.
    rewrite Hf.
    cbn [Practice.currentQuestion Practice.set_gameFinished Practice.dom].
    rewrite Hq. cbn [strictEq]. fold n.
    rewrite (practice_schedule now (Some letter) (answer cq)
               (String.eqb letter (answer cq)) n 0).
    - cbn [fst]. unfold Practice.setTimeout.
      cbn [Practice.timers Practice.set_timers Practice.filling
           Practice.set_gameFinished].
      rewrite Ht. cbn [app].
      rewrite practice_insertTimer_last; [reflexivity |].
      intros u Hu. apply in_map_iff in Hu. destruct Hu as (i & <- & Hi).
      apply in_seq in Hi. cbn [Practice.due]. lia.
    - cbn [Practice.timers Practice.set_gameFinished]. rewrite Ht.
      intros u []. }
  set (p1 := Practice.set_timers ts (Practice.set_gameFinished true p)) in *.
  assert (Hok1 : practiceOk p1) by exact Hok.
  destruct (practice_next_moves p1 Hok1 Hlt) as (nq & Hnq & H2).
  exists nq. split; [exact Hnq |].
  subst p'. unfold Practice.run. cbn [fold_left]. rewrite H1.
  change (Practice.step p1 Practice.EvNext)
    with (Practice.nextQuestionButton_click p1).
  rewrite H2.
  cbn [p1 Practice.set_timers Practice.set_gameFinished Practice.questions
       Practice.currentQuestionIndex Practice.dom Practice.filling
       Practice.timers Practice.explanationText].
  replace (S n) with (length ts)
    by (subst ts; rewrite length_app, length_map, length_seq; cbn; lia).
  match goal with
  | |- context [fold_left Practice.step _ ?q] =>
      change (fold_left Practice.step (repeat Practice.EvTimeout (length ts)) q)
        with (Practice.run (repeat Practice.EvTimeout (length ts)) q);
      rewrite (practice_run_timeouts ts q eq_refl);
      set (q0 := Practice.set_timers [] q)
  end.
  assert (E : fold_left (fun p t => Practice.fireTask (Practice.task t) p)
                        ts q0
              = Practice.fireTask
                  (Practice.ShowFeedback (String.eqb letter (answer cq))) q0).
  { unfold ts. rewrite fold_left_app.
    rewrite practice_stale_reveals; [reflexivity |].
    subst q0. cbn [Practice.filling Practice.set_timers]. lia. }
  rewrite E. subst q0. cbn. repeat split.
Qed.

Lemma practice_feedback_outlives_navigation_witness :
  exists nq,
    jsIndex sampleBank 1 = Some nq
    /\ Practice.explanationText
         (Practice.dom
            (Practice.run
               (Practice.EvClick july1_noon (Some "A"%string)
                :: Practice.EvNext :: repeat Practice.EvTimeout 5)
               (Practice.init (Some sampleBank))))
       = explanation nq.
Proof.
  destruct (practice_feedback_outlives_navigation july1_noon "A"
              (Practice.init (Some sampleBank)) sampleQuestion)
    as (nq & H1 & _ & _ & _ & _ & H2 & _).
  - apply practice_init_ok.
  - reflexivity.
  - reflexivity.
  - reflexivity.
  - cbn. lia.
  - exists nq. split; [exact H1 | exact H2].
Defined.
